(** * vectorize: the cog predictor of src/predict.py

    A shallow embedding of [Predictor.predict] and of the parts of the
    Python runtime it calls, followed by the properties of the
    vectorize operation.

    - Python [int] is [Z]; Python [float] is IEEE binary64, here the
      primitive [float]; [str] is [string]; file contents are byte lists.
    - The file system, the clock, the temporary-name generator and the
      log of started processes are threaded as explicit state; Python
      exceptions are the left summand of the result.
    - The rich console calls only display values.  They are kept where
      they can raise: where the displayed expression is evaluated (the
      f-string divisions) and where the displayed text comes from the
      caller or from the engine and rich parses it as markup (the
      settings table, the engine's error text).  PIL's format and mode
      identifiers and formatted numbers hold no square bracket, so their
      display cannot fail; the rendering itself is not modelled. *)

From Stdlib Require Import ZArith String List.
From Stdlib Require Import Floats.PrimFloat Numbers.Cyclic.Int63.Uint63.
From Stdlib Require Import Numbers.DecimalString.
From stdpp Require Import gmap strings.
From Stdlib Require Floats.FloatAxioms Floats.FloatOps Floats.SpecFloat.
From Stdlib Require Numbers.DecimalPos Numbers.DecimalZ.

Open Scope string_scope.
Open Scope Z_scope.

(** ** The Python runtime *)

Module Py.

(** Exceptions that can leave [predict].  [ValidationError] is raised by
    the cog runtime, [UnidentifiedImageError] by PIL's [Image.open],
    [CalledProcessError] by [subprocess.run(..., check=True)],
    [UnicodeDecodeError] by its [text=True] decoding of the captured
    streams, [MarkupError] by rich when it parses a text as markup. *)
Inductive exn : Type :=
| ValidationError (fields : list string)
| FileNotFoundError (path : string)
| UnidentifiedImageError (path : string)
| FileExistsError
| CalledProcessError (returncode : Z) (cmd : list string)
                     (output stderr : string)
| ZeroDivisionError
| UnicodeDecodeError (object : list Byte.byte)
| MarkupError (markup : string).

Definition result (A : Type) : Type := (exn + A)%type.

(** [float(n)] for an [int] below 2^63 in absolute value (file sizes and
    pixel counts are): the nearest binary64, exact up to 2^53. *)
Definition float_of_int (z : Z) : float :=
  match z with
  | Z0 => 0%float
  | Zpos _ => PrimFloat.of_uint63 (Uint63.of_Z z)
  | Zneg p => PrimFloat.opp (PrimFloat.of_uint63 (Uint63.of_Z (Zpos p)))
  end.

(** [a / b] on floats: Python raises where IEEE would give inf or nan. *)
Definition truediv (a b : float) : result float :=
  if PrimFloat.eqb b 0%float then inl ZeroDivisionError
  else inr (PrimFloat.div a b).

(** [a / b] on two ints (true division). *)
Definition truediv_int (a b : Z) : result float :=
  if b =? 0 then inl ZeroDivisionError
  else inr (PrimFloat.div (float_of_int a) (float_of_int b)).

(** [str(n)] for an [int]: decimal digits, a leading minus sign. *)
Definition str_int (z : Z) : string :=
  NilZero.string_of_int (Z.to_int z).

(** [s.startswith(p)] and [s.endswith(p)]. *)
Definition startswith (s p : string) : bool := String.prefix p s.

Fixpoint endswith (s p : string) : bool :=
  String.eqb s p ||
  match s with
  | EmptyString => false
  | String _ s' => endswith s' p
  end.

(** [posixpath.join(a, b)]. *)
Definition os_path_join (a b : string) : string :=
  if startswith b "/" then b
  else if String.eqb a EmptyString || endswith a "/" then a +:+ b
  else a +:+ "/" +:+ b.

(** [s.replace("\r\n", "\n")] and [s.replace("\r", "\n")], and their
    composition, which is what [subprocess] applies to a decoded stream
    in text mode (universal newlines). *)
Definition CR : Ascii.ascii := Ascii.ascii_of_nat 13.
Definition LF : Ascii.ascii := Ascii.ascii_of_nat 10.

Fixpoint replace_crlf (s : string) : string :=
  match s with
  | EmptyString => EmptyString
  | String c s' =>
      match s' with
      | EmptyString => String c EmptyString
      | String c' s'' =>
          if Ascii.eqb c CR && Ascii.eqb c' LF
          then String LF (replace_crlf s'')
          else String c (replace_crlf s')
      end
  end.

Fixpoint replace_cr (s : string) : string :=
  match s with
  | EmptyString => EmptyString
  | String c s' => String (if Ascii.eqb c CR then LF else c) (replace_cr s')
  end.

Definition translate_newlines (s : string) : string :=
  replace_cr (replace_crlf s).

(** ["[" in s]. *)
Fixpoint has_bracket (s : string) : bool :=
  match s with
  | EmptyString => false
  | String c s' => Ascii.eqb c (Ascii.ascii_of_nat 91) || has_bracket s'
  end.

(** A number as an expression of [predict] can yield it: the conditional
    expression of the compression ratio is an [int] in one branch and a
    [float] in the other. *)
Inductive num : Type :=
| Int (z : Z)
| Float (f : float).

End Py.
Import Py.

(** ** The declared inputs of [predict] (lines 26-77) *)

(** [Input(default=..., ge=..., le=...)] on an [int] parameter. *)
Record IntInput : Type :=
  { int_default : Z; int_ge : Z; int_le : Z }.

(** [Input(default=..., ge=..., le=...)] on a [float] parameter. *)
Record FloatInput : Type :=
  { float_default : float; float_ge : float; float_le : float }.

(** [Input(default=..., choices=[...])] on a [str] parameter. *)
Record StrInput : Type :=
  { str_choices : list string; str_default : string }.

Definition color_mode_input : StrInput :=
  {| str_choices := ["color"; "binary"]; str_default := "color" |}.
Definition hierarchical_input : StrInput :=
  {| str_choices := ["stacked"; "cutout"]; str_default := "stacked" |}.
Definition filter_speckle_input : IntInput :=
  {| int_default := 4; int_ge := 0; int_le := 100 |}.
Definition color_precision_input : IntInput :=
  {| int_default := 6; int_ge := 1; int_le := 8 |}.
Definition layer_difference_input : IntInput :=
  {| int_default := 16; int_ge := 0; int_le := 100 |}.
Definition corner_threshold_input : IntInput :=
  {| int_default := 60; int_ge := 0; int_le := 180 |}.
Definition segment_length_input : FloatInput :=
  {| float_default := 10%float; float_ge := 3.5%float; float_le := 50%float |}.
Definition splice_threshold_input : IntInput :=
  {| int_default := 45; int_ge := 0; int_le := 180 |}.

(** The arguments of one call of [predict]: the image and eight tuning
    parameters. *)
Record Request : Type := mkRequest
  { image : string;
    color_mode : string;
    hierarchical : string;
    filter_speckle : Z;
    color_precision : Z;
    layer_difference : Z;
    corner_threshold : Z;
    segment_length : float;
    splice_threshold : Z }.

(** The request a caller gets who passes the image only. *)
Definition default_request (img : string) : Request :=
  {| image := img;
     color_mode := str_default color_mode_input;
     hierarchical := str_default hierarchical_input;
     filter_speckle := int_default filter_speckle_input;
     color_precision := int_default color_precision_input;
     layer_difference := int_default layer_difference_input;
     corner_threshold := int_default corner_threshold_input;
     segment_length := float_default segment_length_input;
     splice_threshold := int_default splice_threshold_input |}.

(** What the cog runtime checks for each declared input before it calls
    [predict]: [ge] and [le] are inclusive, [choices] is membership.  A
    float nan satisfies neither comparison. *)
Definition int_ok (i : IntInput) (v : Z) : bool :=
  (int_ge i <=? v) && (v <=? int_le i).

Definition float_ok (i : FloatInput) (v : float) : bool :=
  PrimFloat.leb (float_ge i) v && PrimFloat.leb v (float_le i).

Definition str_ok (i : StrInput) (v : string) : bool :=
  existsb (String.eqb v) (str_choices i).

Definition violation (name : string) (ok : bool) : list string :=
  if ok then [] else [name].

(** The names of the parameters of [r] that violate their declaration, in
    the order of the signature. *)
Definition violations (r : Request) : list string :=
  violation "color_mode" (str_ok color_mode_input (color_mode r)) ++
  violation "hierarchical" (str_ok hierarchical_input (hierarchical r)) ++
  violation "filter_speckle" (int_ok filter_speckle_input (filter_speckle r)) ++
  violation "color_precision" (int_ok color_precision_input (color_precision r)) ++
  violation "layer_difference" (int_ok layer_difference_input (layer_difference r)) ++
  violation "corner_threshold" (int_ok corner_threshold_input (corner_threshold r)) ++
  violation "segment_length" (float_ok segment_length_input (segment_length r)) ++
  violation "splice_threshold" (int_ok splice_threshold_input (splice_threshold r)).

(** ** The world outside the process *)

(** What [Image.open] reads from a file's header. *)
Record ImageInfo : Type :=
  { format : string; size : Z * Z; mode : string }.

(** How a process is started: from an argument vector, handed to the
    program as it is, or from one command line that a shell splits and
    interprets. *)
Inductive Invocation : Type :=
| Exec (argv : list string)
| Shell (command : string).

(** The end of a child process: no program of that name, or an exit
    status, the bytes it wrote to its two captured streams and the files
    it leaves. *)
Inductive Completed : Type :=
| NoSuchProgram
| Exited (returncode : Z) (stdout stderr : list Byte.byte)
         (files' : gmap string (list Byte.byte)).

(** The platform [predict] runs on; nothing in it is changed by a call. *)
Record Platform : Type :=
  { str_float : float → string;        (* str(x) for a float *)
    identify : list Byte.byte → option ImageInfo;   (* PIL's format plugins *)
    run_program : list string → gmap string (list Byte.byte) → Completed;
    decode : list Byte.byte → option string;  (* bytes.decode, locale's codec *)
    markup_ok : string → bool;         (* rich parses the markup without error *)
    gettempdir : string;               (* tempfile.gettempdir() *)
    TMP_MAX : nat;                     (* tempfile.TMP_MAX *)
    candidate_names : nat → string;    (* tempfile._get_candidate_names() *)
    clock : nat → float }.             (* successive values of time.time() *)

(** What a call can change. *)
Record State : Type :=
  { files : gmap string (list Byte.byte);
    time_calls : nat;
    names_drawn : nat;
    invocations : list Invocation }.

(** ** A state and exception monad over the platform *)

Definition M (A : Type) : Type := Platform → State → result A * State.

Definition ret {A : Type} (a : A) : M A := λ _ s, (inr a, s).

Definition raise {A : Type} (e : exn) : M A := λ _ s, (inl e, s).

Definition lift {A : Type} (r : result A) : M A := λ _ s, (r, s).

Definition bind {A B : Type} (m : M A) (k : A → M B) : M B :=
  λ P s, match m P s with
         | (inl e, s') => (inl e, s')
         | (inr a, s') => k a P s'
         end.

Notation "'let*' x ':=' m 'in' k" := (bind m (λ x, k))
  (at level 10, x name, m at level 100, k at level 200).
Notation "'do' m 'in' k" := (bind m (λ _, k))
  (at level 10, m at level 100, k at level 200).

(** [try: m except ... as e: handler e]. *)
Definition try_except {A : Type} (m : M A) (handler : exn → M A) : M A :=
  λ P s, match m P s with
         | (inl e, s') => handler e P s'
         | (inr a, s') => (inr a, s')
         end.

(** ** Library calls made by [predict] *)

(** The state after one more reading of the clock, after names were drawn
    up to [k], after a launch was logged, and with the files a child left. *)
Definition tick (s : State) : State :=
  {| files := files s; time_calls := S (time_calls s);
     names_drawn := names_drawn s; invocations := invocations s |}.

Definition drawn (k : nat) (s : State) : State :=
  {| files := files s; time_calls := time_calls s;
     names_drawn := k; invocations := invocations s |}.

Definition launched (i : Invocation) (s : State) : State :=
  {| files := files s; time_calls := time_calls s;
     names_drawn := names_drawn s;
     invocations := (invocations s ++ [i])%list |}.

Definition written (fs : gmap string (list Byte.byte)) (s : State) : State :=
  {| files := fs; time_calls := time_calls s;
     names_drawn := names_drawn s; invocations := invocations s |}.

(** [time.time()]. *)
Definition time_time : M float :=
  λ P s, (inr (clock P (time_calls s)), tick s).

(** [Image.open(path)]: opens the file and identifies its format. *)
Definition Image_open (path : string) : M ImageInfo :=
  λ P s, match files s !! path with
         | None => (inl (FileNotFoundError path), s)
         | Some bytes =>
             match identify P bytes with
             | None => (inl (UnidentifiedImageError path), s)
             | Some img => (inr img, s)
             end
         end.

(** [os.path.getsize(path)]. *)
Definition os_path_getsize (path : string) : M Z :=
  λ _ s, match files s !! path with
         | None => (inl (FileNotFoundError path), s)
         | Some bytes => (inr (Z.of_nat (length bytes)), s)
         end.

(** The loop of [tempfile.mktemp]: draw names until one is free. *)
Fixpoint mktemp_loop (P : Platform) (fs : gmap string (list Byte.byte))
    (suffix : string) (tries : nat) (k : nat) : option (string * nat) :=
  match tries with
  | O => None
  | S tries' =>
      let file := os_path_join (gettempdir P)
                    ("tmp" +:+ candidate_names P k +:+ suffix) in
      match fs !! file with
      | None => Some (file, S k)
      | Some _ => mktemp_loop P fs suffix tries' (S k)
      end
  end.

(** [tempfile.mktemp(suffix=...)].  The names come from the process-wide
    name sequence: a call that finds no free name has drawn TMP_MAX of
    them. *)
Definition tempfile_mktemp (suffix : string) : M string :=
  λ P s, match mktemp_loop P (files s) suffix (TMP_MAX P) (names_drawn s) with
         | None => (inl FileExistsError,
                    drawn (names_drawn s + TMP_MAX P) s)
         | Some (file, k) => (inr file, drawn k s)
         end.

(** A captured stream in text mode ([subprocess._translate_newlines]):
    decoded with the locale's codec, strictly, then CR LF and CR rewritten
    to LF. *)
Definition text_mode (P : Platform) (data : list Byte.byte) : result string :=
  match decode P data with
  | None => inl (UnicodeDecodeError data)
  | Some t => inr (translate_newlines t)
  end.

(** Both captured streams as text, stdout first. *)
Definition captured_text (P : Platform) (stdout stderr : list Byte.byte)
  : result (string * string) :=
  match text_mode P stdout with
  | inl e => inl e
  | inr out_text =>
      match text_mode P stderr with
      | inl e => inl e
      | inr err_text => inr (out_text, err_text)
      end
  end.

(** [subprocess.run(args, capture_output=True, text=True, check=True)] with
    [args] a list and no [shell=True]: the list is the child's argument
    vector.  The streams are decoded once the child has ended, whatever
    its status; the status is checked after that. *)
Definition subprocess_run (args : list string) : M unit :=
  λ P s,
    let s' := launched (Exec args) s in
    match run_program P args (files s) with
    | NoSuchProgram => (inl (FileNotFoundError (hd EmptyString args)), s')
    | Exited returncode stdout stderr files' =>
        (match captured_text P stdout stderr with
         | inl e => inl e
         | inr (out_text, err_text) =>
             if returncode =? 0 then inr tt
             else inl (CalledProcessError returncode args out_text err_text)
         end,
         written files' s')
    end.

(** rich renders a text with markup enabled: a text without a square
    bracket is taken as it is, any other is parsed, which can fail. *)
Definition renders (P : Platform) (markup : string) : bool :=
  negb (has_bracket markup) || markup_ok P markup.

(** [console.print(markup)]. *)
Definition console_print (markup : string) : M unit :=
  λ P s, if renders P markup then (inr tt, s)
         else (inl (MarkupError markup), s).

(** [console.print(table)] for the cells of a table that are not
    constants of the source: each cell is rendered on its own. *)
Fixpoint console_print_cells (cells : list string) : M unit :=
  match cells with
  | [] => ret tt
  | cell :: cells' => do console_print cell in console_print_cells cells'
  end.

(** ** [Predictor.predict] (lines 78-185) *)

(** Line 160. *)
Definition compression_ratio (file_size output_size : Z) : result num :=
  if file_size >? 0 then
    match truediv_int output_size file_size with
    | inl e => inl e
    | inr q => inr (Float (PrimFloat.mul (PrimFloat.sub (float_of_int 1) q)
                                         (float_of_int 100)))
    end
  else inr (Int 0).

(** The expression displayed as "Speed" (line 173). *)
Definition speed (img : ImageInfo) (elapsed_time : float) : result float :=
  match truediv (float_of_int (fst (size img) * snd (size img))) elapsed_time with
  | inl e => inl e
  | inr q => truediv q (float_of_int 1000)
  end.

(** Lines 110-122. *)
Definition cmd (P : Platform) (r : Request) (output_path : string)
  : list string :=
  [ "vtracer";
    "--input"; image r;
    "--output"; output_path;
    "--colormode"; color_mode r;
    "--hierarchical"; hierarchical r;
    "--filter_speckle"; str_int (filter_speckle r);
    "--color_precision"; str_int (color_precision r);
    "--layer_difference"; str_int (layer_difference r);
    "--corner_threshold"; str_int (corner_threshold r);
    "--length_threshold"; str_float P (segment_length r);
    "--splice_threshold"; str_int (splice_threshold r) ].

(** The cells of the settings table (lines 99-103) that display
    arguments of the call. *)
Definition settings_cells (r : Request) : list string :=
  [ color_mode r; hierarchical r; str_int (filter_speckle r);
    str_int (color_precision r); str_int (layer_difference r) ].

(** The except clause of lines 152-155: the engine's error text is printed
    inside a red tag, then the exception is raised again. *)
Definition print_and_reraise (e : exn) : M unit :=
  match e with
  | CalledProcessError _ _ _ stderr =>
      do console_print ("[red]" +:+ stderr +:+ "[/red]") in raise e
  | _ => raise e
  end.

Definition predict (r : Request) : M string :=
  let* start_time := time_time in
  let* img := Image_open (image r) in
  let* file_size := os_path_getsize (image r) in
  do lift (truediv_int file_size 1024) in
  do console_print_cells (settings_cells r) in
  let* output_path := tempfile_mktemp ".svg" in
  do (λ P, try_except (subprocess_run (cmd P r output_path))
                      print_and_reraise P) in
  let* now := time_time in
  let elapsed_time := PrimFloat.sub now start_time in
  let* output_size := os_path_getsize output_path in
  do lift (compression_ratio file_size output_size) in
  do lift (truediv_int output_size 1024) in
  do lift (speed img elapsed_time) in
  ret output_path.

(** ** The vectorize operation: the cog runtime calling [predict] *)

(** [predict] is called by the cog runtime, never directly: its default
    arguments are the [Input(...)] declarations themselves.  The runtime
    checks the arguments of a call against these declarations, answers a
    violation with a ValidationError that names the offending fields, and
    runs [predict] only if there is none. *)
Definition validate (r : Request) : result Request :=
  match violations r with
  | [] => inr r
  | fields => inl (ValidationError fields)
  end.

Definition vectorize (r : Request) : M string :=
  match validate r with
  | inl e => raise e
  | inr r' => predict r'
  end.

(** ** A platform and a state to run the model on

    Test doubles of the platform: every non-empty file is a 100 x 100
    PNG, the stub engine writes a fixed document to the path after
    [--output], the locale's codec is ASCII, the clock advances two
    seconds per reading. *)

Definition stub_identify (bytes : list Byte.byte) : option ImageInfo :=
  match bytes with
  | [] => None
  | _ => Some {| format := "PNG"; size := (100, 100); mode := "RGB" |}
  end.

Definition stub_engine (svg : list Byte.byte) (argv : list string)
    (fs : gmap string (list Byte.byte)) : Completed :=
  match argv with
  | _ :: _ :: _ :: _ :: out :: _ => Exited 0 [] [] (<[out := svg]> fs)
  | _ => NoSuchProgram
  end.

(** ASCII: a byte above 127 does not decode. *)
Definition stub_decode (data : list Byte.byte) : option string :=
  if forallb (λ b, N.ltb (Byte.to_N b) 128) data
  then Some (string_of_list_byte data)
  else None.

(** A stand-in for rich's tag matching: a closing tag needs an open one. *)
Fixpoint stub_markup_from (s : string) (open_tags : nat) : bool :=
  match s with
  | EmptyString => true
  | String c s' =>
      if Ascii.eqb c (Ascii.ascii_of_nat 91) then
        match s' with
        | String c' _ =>
            if Ascii.eqb c' (Ascii.ascii_of_nat 47) then
              match open_tags with
              | O => false
              | S n => stub_markup_from s' n
              end
            else stub_markup_from s' (S open_tags)
        | EmptyString => true
        end
      else stub_markup_from s' open_tags
  end.

Definition stub_markup_ok (markup : string) : bool :=
  stub_markup_from markup 0.

(** [str(x)] for the floats the examples use. *)
Definition stub_str_float (x : float) : string :=
  if PrimFloat.eqb x 10 then "10.0"
  else if PrimFloat.eqb x 3.5 then "3.5"
  else if PrimFloat.eqb x 50 then "50.0"
  else "nan".

Definition failing_engine (argv : list string)
    (fs : gmap string (list Byte.byte)) : Completed :=
  Exited 1 [] (list_byte_of_string "invalid color mode") fs.

Definition test_platform
    (run : list string → gmap string (list Byte.byte) → Completed)
    (clk : nat → float) : Platform :=
  {| str_float := stub_str_float;
     identify := stub_identify;
     run_program := run;
     decode := stub_decode;
     markup_ok := stub_markup_ok;
     gettempdir := "/tmp";
     TMP_MAX := 100;
     candidate_names := λ k, str_int (Z.of_nat k);
     clock := clk |}.

Definition stub_platform : Platform :=
  test_platform (stub_engine (list_byte_of_string "<svg/>"))
                (λ k, float_of_int (2 * Z.of_nat k)).

(** The engine fails: status 1 and a diagnostic on its error stream. *)
Definition failing_platform : Platform :=
  test_platform failing_engine (λ k, float_of_int (2 * Z.of_nat k)).

(** The engine succeeds and leaves a file of no bytes. *)
Definition empty_output_platform : Platform :=
  test_platform (stub_engine []) (λ k, float_of_int (2 * Z.of_nat k)).

(** Two readings of the clock give the same value. *)
Definition frozen_clock_platform : Platform :=
  test_platform (stub_engine (list_byte_of_string "<svg/>"))
                (λ _, float_of_int 1762000000).

Definition stub_state : State :=
  {| files := {[ "/src/in.png" := list_byte_of_string "PNG" ]};
     time_calls := 0; names_drawn := 0; invocations := [] |}.

(** The same image in a file that holds no bytes. *)
Definition unreadable_state : State :=
  {| files := {[ "/src/in.png" := [] ]};
     time_calls := 0; names_drawn := 0; invocations := [] |}.

(** ** Definitions used to state the properties *)

(** The parameter domains as the specification's table gives them. *)
Definition spec_in_domain (r : Request) : Prop :=
  (color_mode r = "color" ∨ color_mode r = "binary") ∧
  (hierarchical r = "stacked" ∨ hierarchical r = "cutout") ∧
  0 ≤ filter_speckle r ≤ 100 ∧
  1 ≤ color_precision r ≤ 8 ∧
  0 ≤ layer_difference r ≤ 100 ∧
  0 ≤ corner_threshold r ≤ 180 ∧
  (PrimFloat.leb 3.5 (segment_length r) = true ∧
   PrimFloat.leb (segment_length r) 50 = true) ∧
  0 ≤ splice_threshold r ≤ 180.


(** The parameters by kind, with the declaration, the name and the
    field of the request each one stands for. *)
Inductive IntParam : Type :=
| FilterSpeckle | ColorPrecision | LayerDifference | CornerThreshold
| SpliceThreshold.

Inductive StrParam : Type :=
| ColorMode | Hierarchical.

Definition int_input (p : IntParam) : IntInput :=
  match p with
  | FilterSpeckle => filter_speckle_input
  | ColorPrecision => color_precision_input
  | LayerDifference => layer_difference_input
  | CornerThreshold => corner_threshold_input
  | SpliceThreshold => splice_threshold_input
  end.

Definition int_name (p : IntParam) : string :=
  match p with
  | FilterSpeckle => "filter_speckle"
  | ColorPrecision => "color_precision"
  | LayerDifference => "layer_difference"
  | CornerThreshold => "corner_threshold"
  | SpliceThreshold => "splice_threshold"
  end.

Definition set_int (p : IntParam) (v : Z) (r : Request) : Request :=
  match p with
  | FilterSpeckle =>
      mkRequest (image r) (color_mode r) (hierarchical r) v
        (color_precision r) (layer_difference r) (corner_threshold r)
        (segment_length r) (splice_threshold r)
  | ColorPrecision =>
      mkRequest (image r) (color_mode r) (hierarchical r) (filter_speckle r)
        v (layer_difference r) (corner_threshold r)
        (segment_length r) (splice_threshold r)
  | LayerDifference =>
      mkRequest (image r) (color_mode r) (hierarchical r) (filter_speckle r)
        (color_precision r) v (corner_threshold r)
        (segment_length r) (splice_threshold r)
  | CornerThreshold =>
      mkRequest (image r) (color_mode r) (hierarchical r) (filter_speckle r)
        (color_precision r) (layer_difference r) v
        (segment_length r) (splice_threshold r)
  | SpliceThreshold =>
      mkRequest (image r) (color_mode r) (hierarchical r) (filter_speckle r)
        (color_precision r) (layer_difference r) (corner_threshold r)
        (segment_length r) v
  end.

Definition set_segment_length (v : float) (r : Request) : Request :=
  mkRequest (image r) (color_mode r) (hierarchical r) (filter_speckle r)
    (color_precision r) (layer_difference r) (corner_threshold r)
    v (splice_threshold r).

Definition str_input (p : StrParam) : StrInput :=
  match p with
  | ColorMode => color_mode_input
  | Hierarchical => hierarchical_input
  end.

Definition str_name (p : StrParam) : string :=
  match p with
  | ColorMode => "color_mode"
  | Hierarchical => "hierarchical"
  end.

Definition set_str (p : StrParam) (v : string) (r : Request) : Request :=
  match p with
  | ColorMode =>
      mkRequest (image r) v (hierarchical r) (filter_speckle r)
        (color_precision r) (layer_difference r) (corner_threshold r)
        (segment_length r) (splice_threshold r)
  | Hierarchical =>
      mkRequest (image r) (color_mode r) v (filter_speckle r)
        (color_precision r) (layer_difference r) (corner_threshold r)
        (segment_length r) (splice_threshold r)
  end.

(** The bounds of the numeric parameters as the specification lists them. *)
Definition spec_int_bounds : list (string * Z * Z) :=
  [ ("filter_speckle", 0, 100); ("color_precision", 1, 8);
    ("layer_difference", 0, 100); ("corner_threshold", 0, 180);
    ("splice_threshold", 0, 180) ].

(** A call reaches the engine with destination [out]: the arguments are
    valid, the image opens, and [mktemp] finds the free name [out]. *)
Definition reaches_engine (P : Platform) (s : State) (r : Request)
    (out : string) : Prop :=
  violations r = [] ∧
  (∃ bytes img, files s !! image r = Some bytes ∧ identify P bytes = Some img) ∧
  (∃ k, mktemp_loop P (files s) ".svg" (TMP_MAX P) (names_drawn s)
        = Some (out, k)).

(** The compression ratio in the specification's words: 0 when the input
    size is 0, else (1 - output_size / input_size) * 100. *)
Definition spec_compression_ratio (input_size output_size : Z) : num :=
  if input_size =? 0 then Int 0
  else Float (PrimFloat.mul
                (PrimFloat.sub 1 (PrimFloat.div (float_of_int output_size)
                                                (float_of_int input_size)))
                100).

(** The engine renders the image without regard to the destination: in a
    run that exits with status 0, what it leaves at the path after
    [--output] is a function [render] of its other arguments and of the
    bytes at the path after [--input], whatever the destination's name
    and the other files are. *)
Definition destination_blind (P : Platform) : Prop :=
  ∃ render : list string → option (list Byte.byte) → option (list Byte.byte),
    ∀ (bin img out : string) (rest : list string)
      (fs fs' : gmap string (list Byte.byte)) (so se : list Byte.byte),
      run_program P (bin :: "--input" :: img :: "--output" :: out :: rest) fs
      = Exited 0 so se fs' →
      fs' !! out = render (bin :: rest) (fs !! img).

(** The engine writes the name of its destination into its artifact: a
    function of its argument vector alone. *)
Definition naming_engine (argv : list string)
    (fs : gmap string (list Byte.byte)) : Completed :=
  match argv with
  | _ :: _ :: _ :: _ :: out :: _ =>
      Exited 0 [] [] (<[out := list_byte_of_string out]> fs)
  | _ => NoSuchProgram
  end.

Definition naming_platform : Platform :=
  test_platform naming_engine (λ k, float_of_int (2 * Z.of_nat k)).

(** The engine fails and ends its diagnostic with CR LF. *)
Definition crlf_engine (argv : list string)
    (fs : gmap string (list Byte.byte)) : Completed :=
  Exited 1 []
    (list_byte_of_string ("invalid color mode" +:+ String CR (String LF EmptyString)))
    fs.

Definition crlf_platform : Platform :=
  test_platform crlf_engine (λ k, float_of_int (2 * Z.of_nat k)).

(** ** Further definitions: outcomes of a call *)

(** The elapsed time of line 158 for a call started in [s]: the second
    reading of the clock minus the first. *)
Definition elapsed_time_from (P : Platform) (s : State) : float :=
  PrimFloat.sub (clock P (S (time_calls s))) (clock P (time_calls s)).

(** The state in which the engine has just been launched with
    destination [out], [k] names having been drawn. *)
Definition engine_started (P : Platform) (s : State) (r : Request)
    (out : string) (k : nat) : State :=
  launched (Exec (cmd P r out)) (drawn k (tick s)).

(** The engine's error text as line 154 prints it. *)
Definition error_line (stderr : string) : string :=
  "[red]" +:+ stderr +:+ "[/red]".

(** The ways a call can end, in the order of the statements of [predict],
    each with the result and the state it ends in. *)
Inductive Outcome (P : Platform) (s : State) (r : Request)
  : result string → State → Prop :=
| Rejected :
    violations r ≠ [] →
    Outcome P s r (inl (ValidationError (violations r))) s
| NoImage :
    violations r = [] →
    files s !! image r = None →
    Outcome P s r (inl (FileNotFoundError (image r))) (tick s)
| NotAnImage bytes :
    violations r = [] →
    files s !! image r = Some bytes →
    identify P bytes = None →
    Outcome P s r (inl (UnidentifiedImageError (image r))) (tick s)
| NoFreeName bytes img :
    violations r = [] →
    files s !! image r = Some bytes →
    identify P bytes = Some img →
    mktemp_loop P (files s) ".svg" (TMP_MAX P) (names_drawn s) = None →
    Outcome P s r (inl FileExistsError)
            (drawn (names_drawn s + TMP_MAX P) (tick s))
| NoEngine out k :
    reaches_engine P s r out →
    mktemp_loop P (files s) ".svg" (TMP_MAX P) (names_drawn s)
    = Some (out, k) →
    run_program P (cmd P r out) (files s) = NoSuchProgram →
    Outcome P s r (inl (FileNotFoundError "vtracer"))
            (engine_started P s r out k)
| Undecodable out k rc bo be fs' e :
    reaches_engine P s r out →
    mktemp_loop P (files s) ".svg" (TMP_MAX P) (names_drawn s)
    = Some (out, k) →
    run_program P (cmd P r out) (files s) = Exited rc bo be fs' →
    captured_text P bo be = inl e →
    Outcome P s r (inl e) (written fs' (engine_started P s r out k))
| EngineFailed out k rc bo be so se fs' :
    reaches_engine P s r out →
    mktemp_loop P (files s) ".svg" (TMP_MAX P) (names_drawn s)
    = Some (out, k) →
    run_program P (cmd P r out) (files s) = Exited rc bo be fs' →
    captured_text P bo be = inr (so, se) →
    rc ≠ 0 →
    renders P (error_line se) = true →
    Outcome P s r (inl (CalledProcessError rc (cmd P r out) so se))
            (written fs' (engine_started P s r out k))
| FailureNotPrinted out k rc bo be so se fs' :
    reaches_engine P s r out →
    mktemp_loop P (files s) ".svg" (TMP_MAX P) (names_drawn s)
    = Some (out, k) →
    run_program P (cmd P r out) (files s) = Exited rc bo be fs' →
    captured_text P bo be = inr (so, se) →
    rc ≠ 0 →
    renders P (error_line se) = false →
    Outcome P s r (inl (MarkupError (error_line se)))
            (written fs' (engine_started P s r out k))
| NoOutput out k bo be so se fs' :
    reaches_engine P s r out →
    mktemp_loop P (files s) ".svg" (TMP_MAX P) (names_drawn s)
    = Some (out, k) →
    run_program P (cmd P r out) (files s) = Exited 0 bo be fs' →
    captured_text P bo be = inr (so, se) →
    fs' !! out = None →
    Outcome P s r (inl (FileNotFoundError out))
            (tick (written fs' (engine_started P s r out k)))
| ZeroElapsed out k bo be so se fs' svg :
    reaches_engine P s r out →
    mktemp_loop P (files s) ".svg" (TMP_MAX P) (names_drawn s)
    = Some (out, k) →
    run_program P (cmd P r out) (files s) = Exited 0 bo be fs' →
    captured_text P bo be = inr (so, se) →
    fs' !! out = Some svg →
    PrimFloat.eqb (elapsed_time_from P s) 0 = true →
    Outcome P s r (inl ZeroDivisionError)
            (tick (written fs' (engine_started P s r out k)))
| Returned out k bo be so se fs' svg :
    reaches_engine P s r out →
    mktemp_loop P (files s) ".svg" (TMP_MAX P) (names_drawn s)
    = Some (out, k) →
    run_program P (cmd P r out) (files s) = Exited 0 bo be fs' →
    captured_text P bo be = inr (so, se) →
    fs' !! out = Some svg →
    PrimFloat.eqb (elapsed_time_from P s) 0 = false →
    Outcome P s r (inr out)
            (tick (written fs' (engine_started P s r out k))).

(** The path [mktemp] tries at its [k]-th draw. *)
Definition candidate_path (P : Platform) (suffix : string) (k : nat)
  : string :=
  os_path_join (gettempdir P) ("tmp" +:+ candidate_names P k +:+ suffix).

(** [int(s)] for a decimal numeral with an optional minus sign. *)
Definition int_of_str (s : string) : option Z :=
  option_map Z.of_int (NilZero.int_of_string s).

(** ** Further test doubles *)

(** No program named vtracer is installed. *)
Definition no_engine_platform : Platform :=
  test_platform (λ _ _, NoSuchProgram) (λ k, float_of_int (2 * Z.of_nat k)).

(** The engine writes part of its output and then fails. *)
Definition partial_engine (argv : list string)
    (fs : gmap string (list Byte.byte)) : Completed :=
  match argv with
  | _ :: _ :: _ :: _ :: out :: _ =>
      Exited 2 [] (list_byte_of_string "disk full")
             (<[out := list_byte_of_string "<sv"]> fs)
  | _ => NoSuchProgram
  end.

Definition partial_output_platform : Platform :=
  test_platform partial_engine (λ k, float_of_int (2 * Z.of_nat k)).

(** [mktemp] gives up after two names. *)
Definition two_names_platform : Platform :=
  {| str_float := stub_str_float;
     identify := stub_identify;
     run_program := stub_engine (list_byte_of_string "<svg/>");
     decode := stub_decode;
     markup_ok := stub_markup_ok;
     gettempdir := "/tmp";
     TMP_MAX := 2;
     candidate_names := λ k, str_int (Z.of_nat k);
     clock := λ k, float_of_int (2 * Z.of_nat k) |}.

(** Both names are taken. *)
Definition crowded_state : State :=
  {| files := {[ "/src/in.png" := list_byte_of_string "PNG";
                 "/tmp/tmp0.svg" := list_byte_of_string "<svg/>";
                 "/tmp/tmp1.svg" := list_byte_of_string "<svg/>" ]};
     time_calls := 0; names_drawn := 0; invocations := [] |}.

(** The engine fails with a diagnostic that holds a closing tag. *)
Definition tagged_engine (argv : list string)
    (fs : gmap string (list Byte.byte)) : Completed :=
  Exited 1 [] (list_byte_of_string "error: [/foo]") fs.

Definition tagged_platform : Platform :=
  test_platform tagged_engine (λ k, float_of_int (2 * Z.of_nat k)).
(** * Properties *)

(** ** The validation gate *)

Lemma violation_nil name ok : violation name ok = [] ↔ ok = true.
Proof. destruct ok; simpl; split; congruence. Qed.

Lemma int_ok_spec i v : int_ok i v = true ↔ int_ge i ≤ v ≤ int_le i.
Proof. unfold int_ok. rewrite andb_true_iff, !Z.leb_le. tauto. Qed.

Lemma str_ok_spec i v : str_ok i v = true ↔ In v (str_choices i).
Proof.
  unfold str_ok. rewrite existsb_exists. split.
  - intros (x & Hin & Heq). apply String.eqb_eq in Heq. now subst.
  - intros Hin. exists v. split; [exact Hin | apply String.eqb_refl].
Qed.

Lemma violations_nil r : violations r = [] ↔ spec_in_domain r.
Proof.
  unfold violations, spec_in_domain.
  rewrite !app_nil, !violation_nil, !int_ok_spec, !str_ok_spec.
  unfold float_ok. rewrite andb_true_iff. simpl. intuition (subst; auto).
Qed.

Lemma validate_inr r r' : validate r = inr r' → r' = r ∧ violations r = [].
Proof.
  unfold validate. destruct (violations r); intros H; simplify_eq; auto.
Qed.

Lemma validate_ok r : violations r = [] → validate r = inr r.
Proof. unfold validate. now intros ->. Qed.

Lemma validate_fail r : violations r ≠ [] →
  validate r = inl (ValidationError (violations r)).
Proof. unfold validate. destruct (violations r); congruence. Qed.

(** C1: a request with a parameter outside its domain is answered with a
    ValidationError that lists at least one parameter, and the state is
    the one before the call: no process was started, no file touched, no
    clock read.  Whenever a call does start the engine, the request is
    inside every domain. *)
Theorem validation_is_a_gate (P : Platform) (s : State) (r : Request) :
  ¬ spec_in_domain r →
  (∃ fields, fields ≠ [] ∧
             vectorize r P s = (inl (ValidationError fields), s)) ∧
  invocations (snd (vectorize r P s)) = invocations s.
Proof.
  intros Hout. rewrite <- violations_nil in Hout.
  unfold vectorize. rewrite (validate_fail r Hout). simpl.
  split; [| reflexivity]. exists (violations r). split; [exact Hout | reflexivity].
Qed.

Lemma validation_is_a_gate_witness :
  let r := mkRequest "/src/in.png" "color" "stacked" 101 6 16 60 10 45 in
  (∃ fields, fields ≠ [] ∧
     vectorize r stub_platform stub_state
     = (inl (ValidationError fields), stub_state)) ∧
  invocations (snd (vectorize r stub_platform stub_state))
  = invocations stub_state.
Proof.
  apply (validation_is_a_gate stub_platform stub_state
           (mkRequest "/src/in.png" "color" "stacked" 101 6 16 60 10 45)).
  unfold spec_in_domain; simpl. lia.
Defined.

(** The gate is the runtime's.  The body of [predict] does not look at the
    bounds: run on its own with filter_speckle = 101 it starts the engine
    with that value. *)
Example predict_body_has_no_check :
  invocations (snd (predict (set_int FilterSpeckle 101
                               (default_request "/src/in.png"))
                            stub_platform stub_state)) =
    [Exec [ "vtracer"; "--input"; "/src/in.png"; "--output"; "/tmp/tmp0.svg";
            "--colormode"; "color"; "--hierarchical"; "stacked";
            "--filter_speckle"; "101"; "--color_precision"; "6";
            "--layer_difference"; "16"; "--corner_threshold"; "60";
            "--length_threshold"; "10.0"; "--splice_threshold"; "45" ]].
Proof. vm_compute. reflexivity. Qed.

(** ** Bounds and choices *)

Ltac split_violations H :=
  unfold violations in H; simpl in H;
  repeat (apply app_nil in H; let H1 := fresh "Hv" in destruct H as [H1 H]).

Lemma violations_set_int p v r :
  violations r = [] →
  violations (set_int p v r) = violation (int_name p) (int_ok (int_input p) v).
Proof.
  intros H. split_violations H.
  destruct p; unfold violations; simpl;
    repeat match goal with
           | Hv : violation _ _ = [] |- _ => rewrite Hv; clear Hv
           end;
    simpl; now rewrite ?app_nil_r.
Qed.

Lemma violations_set_segment_length v r :
  violations r = [] →
  violations (set_segment_length v r)
  = violation "segment_length" (float_ok segment_length_input v).
Proof.
  intros H. split_violations H.
  unfold violations; simpl;
    repeat match goal with
           | Hv : violation _ _ = [] |- _ => rewrite Hv; clear Hv
           end;
    simpl; now rewrite ?app_nil_r.
Qed.

Lemma violations_set_str p v r :
  violations r = [] →
  violations (set_str p v r) = violation (str_name p) (str_ok (str_input p) v).
Proof.
  intros H. split_violations H.
  destruct p; unfold violations; simpl;
    repeat match goal with
           | Hv : violation _ _ = [] |- _ => rewrite Hv; clear Hv
           end;
    simpl; now rewrite ?app_nil_r.
Qed.

Lemma validate_violation r name ok :
  violations r = violation name ok →
  validate r = if ok then inr r else inl (ValidationError [name]).
Proof. unfold validate. intros ->. now destruct ok. Qed.

(** C2: in a request whose other parameters are valid, each numeric
    parameter is accepted at its lower and at its upper bound and rejected
    one unit below and one unit above, with a ValidationError that names
    that parameter; each enum parameter is accepted at every declared
    choice and rejected, by name, at every other string.  The declared
    bounds are those of the specification. *)
Theorem bounds_are_inclusive (r : Request) :
  violations r = [] →
  map (λ p, (int_name p, int_ge (int_input p), int_le (int_input p)))
      [FilterSpeckle; ColorPrecision; LayerDifference; CornerThreshold;
       SpliceThreshold] = spec_int_bounds ∧
  (float_ge segment_length_input = 3.5%float ∧
   float_le segment_length_input = 50%float) ∧
  (∀ p : IntParam,
     let lo := int_ge (int_input p) in
     let hi := int_le (int_input p) in
     validate (set_int p lo r) = inr (set_int p lo r) ∧
     validate (set_int p hi r) = inr (set_int p hi r) ∧
     validate (set_int p (lo - 1) r) = inl (ValidationError [int_name p]) ∧
     validate (set_int p (hi + 1) r) = inl (ValidationError [int_name p])) ∧
  (validate (set_segment_length 3.5 r) = inr (set_segment_length 3.5 r) ∧
   validate (set_segment_length 50 r) = inr (set_segment_length 50 r) ∧
   validate (set_segment_length 2.5 r)
   = inl (ValidationError ["segment_length"]) ∧
   validate (set_segment_length 51 r)
   = inl (ValidationError ["segment_length"])) ∧
  (∀ (p : StrParam) (v : string),
     (In v (str_choices (str_input p)) →
      validate (set_str p v r) = inr (set_str p v r)) ∧
     (¬ In v (str_choices (str_input p)) →
      validate (set_str p v r) = inl (ValidationError [str_name p]))).
Proof.
  intros Hr. split; [reflexivity |]. split; [split; reflexivity |].
  split; [| split].
  - intros p lo hi.
    rewrite !(validate_violation _ _ _ (violations_set_int p _ r Hr)).
    subst lo hi. destruct p; repeat split; reflexivity.
  - rewrite !(validate_violation _ _ _ (violations_set_segment_length _ r Hr)).
    repeat split; reflexivity.
  - intros p v.
    rewrite (validate_violation _ _ _ (violations_set_str p v r Hr)).
    split; intros Hin.
    + apply str_ok_spec in Hin. now rewrite Hin.
    + destruct (str_ok (str_input p) v) eqn:E; [| reflexivity].
      apply str_ok_spec in E. contradiction.
Qed.

Lemma bounds_are_inclusive_witness :
  validate (set_int FilterSpeckle 100 (default_request "/src/in.png"))
  = inr (set_int FilterSpeckle 100 (default_request "/src/in.png")) ∧
  validate (set_int FilterSpeckle 101 (default_request "/src/in.png"))
  = inl (ValidationError ["filter_speckle"]).
Proof.
  destruct (bounds_are_inclusive (default_request "/src/in.png") eq_refl)
    as (_ & _ & Hint & _).
  destruct (Hint FilterSpeckle) as (_ & Hhi & _ & Hhi1).
  split; [exact Hhi | exact Hhi1].
Defined.

(** ** Running [predict] *)

Lemma compression_ratio_total file_size output_size :
  ∃ n, compression_ratio file_size output_size = inr n.
Proof.
  unfold compression_ratio, truediv_int.
  destruct (file_size >? 0) eqn:E; [| eauto].
  destruct (file_size =? 0) eqn:E0; [| eauto].
  apply Z.eqb_eq in E0. subst. discriminate.
Qed.

Lemma speed_unfold img e :
  speed img e =
  if PrimFloat.eqb e 0 then inl ZeroDivisionError
  else inr (PrimFloat.div
              (PrimFloat.div (float_of_int (fst (size img) * snd (size img))) e)
              (float_of_int 1000)).
Proof.
  unfold speed, truediv. destruct (PrimFloat.eqb e 0); [reflexivity |].
  change (PrimFloat.eqb (float_of_int 1000) 0) with false. reflexivity.
Qed.

(** The first cell of a table that rich fails on decides its printing. *)
Lemma console_print_cells_run P s cells :
  console_print_cells cells P s =
  match find (λ c, negb (renders P c)) cells with
  | Some c => (inl (MarkupError c), s)
  | None => (inr tt, s)
  end.
Proof.
  induction cells as [| c cells IH]; [reflexivity |].
  cbn [console_print_cells find]. unfold bind, console_print.
  destruct (renders P c); simpl; [exact IH | reflexivity].
Qed.

(** A decimal numeral holds no square bracket. *)
Lemma has_bracket_uint d : has_bracket (NilEmpty.string_of_uint d) = false.
Proof. induction d; simpl; auto. Qed.

Lemma has_bracket_str_int z : has_bracket (str_int z) = false.
Proof.
  unfold str_int, NilZero.string_of_int, NilZero.string_of_uint.
  destruct (Z.to_int z) as [d | d]; destruct d; simpl;
    auto using has_bracket_uint.
Qed.

Lemma renders_str_int P z : renders P (str_int z) = true.
Proof. unfold renders. now rewrite has_bracket_str_int. Qed.

(** The settings of a valid request are printed: the two choices are
    plain words and the rest are numerals. *)
Lemma settings_render P r :
  violations r = [] →
  find (λ c, negb (renders P c)) (settings_cells r) = None.
Proof.
  intros Hv. apply violations_nil in Hv.
  destruct Hv as ([Hc | Hc] & [Hh | Hh] & _);
    unfold settings_cells; rewrite Hc, Hh; cbn [find];
    rewrite !renders_str_int; reflexivity.
Qed.

(** Text mode fails with UnicodeDecodeError only, on the first stream
    that does not decode. *)
Lemma captured_text_inl P bo be e :
  captured_text P bo be = inl e →
  (decode P bo = None ∧ e = UnicodeDecodeError bo) ∨
  (is_Some (decode P bo) ∧ decode P be = None ∧ e = UnicodeDecodeError be).
Proof.
  unfold captured_text, text_mode.
  destruct (decode P bo); [| intros [= <-]; auto].
  destruct (decode P be); [discriminate | intros [= <-]; eauto].
Qed.

Lemma captured_text_inr P bo be so se :
  captured_text P bo be = inr (so, se) ↔
  ∃ to te, decode P bo = Some to ∧ decode P be = Some te ∧
           so = translate_newlines to ∧ se = translate_newlines te.
Proof.
  unfold captured_text, text_mode. split.
  - destruct (decode P bo) as [to|]; [| discriminate].
    destruct (decode P be) as [te|]; [| discriminate].
    intros [= <- <-]. eauto 6.
  - intros (to & te & -> & -> & -> & ->). reflexivity.
Qed.

Arguments console_print_cells : simpl never.

Lemma predict_unfold (r : Request) (P : Platform) (s : State) :
  predict r P s =
  match files s !! image r with
  | None => (inl (FileNotFoundError (image r)), tick s)
  | Some bytes =>
      match identify P bytes with
      | None => (inl (UnidentifiedImageError (image r)), tick s)
      | Some img =>
          match find (λ c, negb (renders P c)) (settings_cells r) with
          | Some c => (inl (MarkupError c), tick s)
          | None =>
              match mktemp_loop P (files s) ".svg" (TMP_MAX P)
                      (names_drawn s) with
              | None => (inl FileExistsError,
                         drawn (names_drawn s + TMP_MAX P) (tick s))
              | Some (out, k) =>
                  let s1 := engine_started P s r out k in
                  match run_program P (cmd P r out) (files s) with
                  | NoSuchProgram => (inl (FileNotFoundError "vtracer"), s1)
                  | Exited rc bo be fs' =>
                      match captured_text P bo be with
                      | inl e => (inl e, written fs' s1)
                      | inr (so, se) =>
                          if rc =? 0 then
                            match fs' !! out with
                            | None => (inl (FileNotFoundError out),
                                       tick (written fs' s1))
                            | Some svg =>
                                if PrimFloat.eqb (elapsed_time_from P s) 0
                                then (inl ZeroDivisionError,
                                      tick (written fs' s1))
                                else (inr out, tick (written fs' s1))
                            end
                          else if renders P (error_line se)
                          then (inl (CalledProcessError rc (cmd P r out) so se),
                                written fs' s1)
                          else (inl (MarkupError (error_line se)),
                                written fs' s1)
                      end
                  end
              end
          end
      end
  end.
Proof.
  unfold predict. set (cells := settings_cells r). clearbody cells.
  unfold bind, time_time, Image_open, os_path_getsize,
    tempfile_mktemp, try_except, subprocess_run, lift, ret. simpl.
  destruct (files s !! image r) as [bytes|] eqn:Hf; [| reflexivity].
  destruct (identify P bytes) as [img|]; [| reflexivity].
  simpl. rewrite Hf. simpl. rewrite console_print_cells_run.
  destruct (find _ cells); [reflexivity |].
  simpl.
  destruct (mktemp_loop _ _ _ _ _) as [[out k]|]; [| reflexivity].
  simpl. fold (engine_started P s r out k).
  destruct (run_program _ _ _) as [| rc bo be fs']; [reflexivity |].
  destruct (captured_text P bo be) as [e | [so se]] eqn:Hcap.
  { apply captured_text_inl in Hcap as [(_ & ->) | (_ & _ & ->)];
      reflexivity. }
  destruct (rc =? 0).
  - simpl. destruct (fs' !! out) as [svg|]; [| reflexivity].
    destruct (compression_ratio_total (Z.of_nat (length bytes))
                (Z.of_nat (length svg))) as [n ->].
    simpl. rewrite speed_unfold. fold (elapsed_time_from P s).
    destruct (PrimFloat.eqb (elapsed_time_from P s) 0); reflexivity.
  - simpl. unfold bind, console_print, raise. fold (error_line se).
    destruct (renders P (error_line se)); reflexivity.
Qed.

Lemma vectorize_valid r P s :
  violations r = [] → vectorize r P s = predict r P s.
Proof. intros H. unfold vectorize. now rewrite (validate_ok r H). Qed.

(** ** Every call ends in one of the ways of [Outcome] *)

Lemma vectorize_outcome P s r :
  Outcome P s r (fst (vectorize r P s)) (snd (vectorize r P s)).
Proof.
  unfold vectorize, validate.
  destruct (violations r) as [| f fs] eqn:Hv.
  2: { simpl. rewrite <- Hv. apply Rejected. congruence. }
  rewrite predict_unfold, (settings_render P r Hv).
  destruct (files s !! image r) as [bytes|] eqn:Hf;
    [| now apply NoImage].
  destruct (identify P bytes) as [img|] eqn:Hi;
    [| now apply (NotAnImage _ _ _ bytes)].
  destruct (mktemp_loop _ _ _ _ _) as [[out k]|] eqn:Hk;
    [| now apply (NoFreeName _ _ _ bytes img)].
  assert (Hreach : reaches_engine P s r out)
    by (split; [exact Hv | split; eauto]).
  cbv zeta.
  destruct (run_program _ _ _) as [| rc bo be fs'] eqn:Hrun;
    [now apply (NoEngine _ _ _ out k) |].
  destruct (captured_text P bo be) as [e | [so se]] eqn:Hcap;
    [now apply (Undecodable _ _ _ out k rc bo be fs' e) |].
  destruct (rc =? 0) eqn:Hrc.
  - apply Z.eqb_eq in Hrc. subst rc.
    destruct (fs' !! out) as [svg|] eqn:Hout;
      [| now apply (NoOutput _ _ _ out k bo be so se fs')].
    destruct (PrimFloat.eqb (elapsed_time_from P s) 0) eqn:He.
    + now apply (ZeroElapsed _ _ _ out k bo be so se fs' svg).
    + now apply (Returned _ _ _ out k bo be so se fs' svg).
  - apply Z.eqb_neq in Hrc.
    destruct (renders P (error_line se)) eqn:Hr.
    + now apply (EngineFailed _ _ _ out k rc bo be so se fs').
    + now apply (FailureNotPrinted _ _ _ out k rc bo be so se fs').
Qed.

Ltac use_run_facts :=
  repeat match goal with
         | H : reaches_engine _ _ _ _ |- _ =>
             destruct H as (?Hv & (?bytes & ?img & ?Hf & ?Hi) & _)
         | H : _ ≠ 0 |- _ => apply Z.eqb_neq in H
         end;
  repeat match goal with
         | H : _ = _ |- _ => rewrite H
         end.

Lemma outcome_run P s r res s' :
  Outcome P s r res s' → vectorize r P s = (res, s').
Proof.
  intros Hout. inversion Hout; subst.
  - unfold vectorize. now rewrite validate_fail.
  - rewrite vectorize_valid, predict_unfold by assumption.
    now use_run_facts.
  - rewrite vectorize_valid, predict_unfold by assumption.
    now use_run_facts.
  - rewrite vectorize_valid, predict_unfold, settings_render by assumption.
    now use_run_facts.
  - destruct H as (Hv & (bytes & img & Hf & Hi) & _).
    now rewrite vectorize_valid, predict_unfold, settings_render, Hf, Hi, H0, H1
      by assumption.
  - destruct H as (Hv & (bytes & img & Hf & Hi) & _).
    now rewrite vectorize_valid, predict_unfold, settings_render, Hf, Hi, H0,
      H1, H2 by assumption.
  - destruct H as (Hv & (bytes & img & Hf & Hi) & _).
    apply Z.eqb_neq in H3.
    now rewrite vectorize_valid, predict_unfold, settings_render, Hf, Hi, H0,
      H1, H2, H3, H4 by assumption.
  - destruct H as (Hv & (bytes & img & Hf & Hi) & _).
    apply Z.eqb_neq in H3.
    now rewrite vectorize_valid, predict_unfold, settings_render, Hf, Hi, H0,
      H1, H2, H3, H4 by assumption.
  - destruct H as (Hv & (bytes & img & Hf & Hi) & _).
    now rewrite vectorize_valid, predict_unfold, settings_render, Hf, Hi, H0,
      H1, H2, H3 by assumption.
  - destruct H as (Hv & (bytes & img & Hf & Hi) & _).
    now rewrite vectorize_valid, predict_unfold, settings_render, Hf, Hi, H0,
      H1, H2, H3, H4 by assumption.
  - destruct H as (Hv & (bytes & img & Hf & Hi) & _).
    now rewrite vectorize_valid, predict_unfold, settings_render, Hf, Hi, H0,
      H1, H2, H3, H4 by assumption.
Qed.

(** The destination of a call that reaches the engine is determined. *)
Lemma reaches_engine_unique P s r out out' :
  reaches_engine P s r out → reaches_engine P s r out' → out = out'.
Proof. intros (_ & _ & (k & Hk)) (_ & _ & (k' & Hk')). congruence. Qed.

(** What a call leaves behind: nothing but a clock reading and drawn
    names when it did not reach the engine; else one more process
    started, and the files the engine left. *)
Lemma outcome_state P s r res s' :
  Outcome P s r res s' →
  (files s' = files s ∧ invocations s' = invocations s ∧
   ∀ out, ¬ reaches_engine P s r out) ∨
  (∃ out, reaches_engine P s r out ∧
          invocations s' = (invocations s ++ [Exec (cmd P r out)])%list ∧
          ((files s' = files s ∧
            run_program P (cmd P r out) (files s) = NoSuchProgram) ∨
           ∃ rc bo be,
             run_program P (cmd P r out) (files s)
             = Exited rc bo be (files s'))).
Proof.
  intros Hout. inversion Hout; subst.
  1-4: left; repeat split; try reflexivity;
       intros out (Hv & (b & i & Hf & Hi) & (k & Hk)); congruence.
  all: right; exists out; split; [assumption |]; split; [reflexivity |];
       simpl; eauto 6.
Qed.

Lemma vectorize_returns P s r p s' :
  vectorize r P s = (inr p, s') →
  ∃ k bo be fs' svg,
    reaches_engine P s r p ∧
    mktemp_loop P (files s) ".svg" (TMP_MAX P) (names_drawn s) = Some (p, k) ∧
    run_program P (cmd P r p) (files s) = Exited 0 bo be fs' ∧
    fs' !! p = Some svg ∧
    s' = tick (written fs' (engine_started P s r p k)).
Proof.
  intros Hret. pose proof (vectorize_outcome P s r) as Hout.
  rewrite Hret in Hout. simpl in Hout. inversion Hout; subst. eauto 10.
Qed.

(** ** The engine's command line *)

(** C3: a call that reaches the engine starts exactly one process, from
    an argument vector and not from a shell command line: the binary's
    name, then a flag and a value for the input path, the output path,
    the colour mode, the hierarchical mode and the six numeric
    parameters, each number as text.  No call, reaching the engine or
    not, starts anything else. *)
Theorem one_exec_invocation (P : Platform) (s : State) (r : Request)
    (out : string) :
  reaches_engine P s r out →
  invocations (snd (vectorize r P s)) =
    (invocations s ++
     [Exec [ "vtracer";
             "--input"; image r;
             "--output"; out;
             "--colormode"; color_mode r;
             "--hierarchical"; hierarchical r;
             "--filter_speckle"; str_int (filter_speckle r);
             "--color_precision"; str_int (color_precision r);
             "--layer_difference"; str_int (layer_difference r);
             "--corner_threshold"; str_int (corner_threshold r);
             "--length_threshold"; str_float P (segment_length r);
             "--splice_threshold"; str_int (splice_threshold r) ]])%list ∧
  (∀ (r' : Request) (i : Invocation),
     In i (invocations (snd (vectorize r' P s))) →
     In i (invocations s) ∨ ∃ out', i = Exec (cmd P r' out')).
Proof.
  intros Hreach. split.
  - destruct (outcome_state _ _ _ _ _ (vectorize_outcome P s r))
      as [(_ & _ & Hno) | (out' & Hreach' & Hlog & _)].
    + now destruct (Hno out).
    + rewrite Hlog, (reaches_engine_unique _ _ _ _ _ Hreach Hreach').
      reflexivity.
  - intros r' i Hin.
    destruct (outcome_state _ _ _ _ _ (vectorize_outcome P s r'))
      as [(_ & Hlog & _) | (out' & _ & Hlog & _)]; rewrite Hlog in Hin.
    + now left.
    + apply in_app_or in Hin as [Hin | [Hin | []]]; eauto.
Qed.

Ltac test_reaches :=
  split; [reflexivity |]; split;
  [ exists (list_byte_of_string "PNG"),
      {| format := "PNG"; size := (100, 100); mode := "RGB" |};
    split; reflexivity
  | exists 1%nat; reflexivity ].

Lemma stub_reaches_engine :
  reaches_engine stub_platform stub_state (default_request "/src/in.png")
    "/tmp/tmp0.svg".
Proof. test_reaches. Defined.

Lemma one_exec_invocation_witness :
  invocations (snd (vectorize (default_request "/src/in.png")
                              stub_platform stub_state)) =
    [Exec [ "vtracer"; "--input"; "/src/in.png"; "--output"; "/tmp/tmp0.svg";
            "--colormode"; "color"; "--hierarchical"; "stacked";
            "--filter_speckle"; "4"; "--color_precision"; "6";
            "--layer_difference"; "16"; "--corner_threshold"; "60";
            "--length_threshold"; "10.0"; "--splice_threshold"; "45" ]].
Proof.
  exact (proj1 (one_exec_invocation stub_platform stub_state
                  (default_request "/src/in.png") "/tmp/tmp0.svg"
                  stub_reaches_engine)).
Defined.

(** ** Failure of the engine *)

(** Counterexample to C4 as stated: the engine exits with status 1 and
    ends its diagnostic with CR LF; the CalledProcessError that leaves
    the call carries the text with LF alone, not what the engine wrote. *)
Lemma engine_error_text_is_not_verbatim :
  let r := default_request "/src/in.png" in
  let sent := "invalid color mode" +:+ String CR (String LF EmptyString) in
  let carried := "invalid color mode" +:+ String LF EmptyString in
  run_program crlf_platform (cmd crlf_platform r "/tmp/tmp0.svg")
    (files stub_state)
  = Exited 1 [] (list_byte_of_string sent) (files stub_state) ∧
  decode crlf_platform (list_byte_of_string sent) = Some sent ∧
  fst (vectorize r crlf_platform stub_state)
  = inl (CalledProcessError 1 (cmd crlf_platform r "/tmp/tmp0.svg")
           EmptyString carried) ∧
  carried ≠ sent.
Proof.
  cbv zeta. split; [reflexivity |]. split; [vm_compute; reflexivity |].
  split; [vm_compute; reflexivity |]. vm_compute. discriminate.
Qed.

(** C4 (amended): when the engine ends with a status other than zero the
    call raises, so no path is returned.  If both captured streams decode
    and rich accepts the printed error line, it raises the
    CalledProcessError of [subprocess.run] (the specification's
    EngineExecutionError) with the status, the command and the two
    streams as text mode delivers them: decoded, CR LF and CR rewritten
    to LF.  If a stream does not decode, it raises UnicodeDecodeError. *)
Theorem engine_failure_is_raised (P : Platform) (s : State) (r : Request)
    (out : string) (rc : Z) (bo be : list Byte.byte)
    (fs' : gmap string (list Byte.byte)) :
  reaches_engine P s r out →
  run_program P (cmd P r out) (files s) = Exited rc bo be fs' →
  rc ≠ 0 →
  (∃ e, fst (vectorize r P s) = inl e) ∧
  (∀ to te,
     decode P bo = Some to →
     decode P be = Some te →
     renders P (error_line (translate_newlines te)) = true →
     fst (vectorize r P s)
     = inl (CalledProcessError rc (cmd P r out)
              (translate_newlines to) (translate_newlines te))) ∧
  (decode P bo = None ∨ decode P be = None →
   ∃ object, fst (vectorize r P s) = inl (UnicodeDecodeError object)).
Proof.
  intros Hreach Hrun Hrc.
  pose proof Hreach as (_ & _ & (k & Hk)).
  destruct (captured_text P bo be) as [e | [so se]] eqn:Hcap.
  - rewrite (outcome_run _ _ _ _ _
               (Undecodable P s r out k rc bo be fs' e Hreach Hk Hrun Hcap)).
    apply captured_text_inl in Hcap as [(Hbo & ->) | ((to & Hbo) & Hbe & ->)].
    + split; [eauto |]. split; [intros; congruence | eauto].
    + split; [eauto |]. split; [intros; congruence | eauto].
  - pose proof Hcap as Hdec.
    apply captured_text_inr in Hdec as (to & te & Hbo & Hbe & -> & ->).
    destruct (renders P (error_line (translate_newlines te))) eqn:Hr.
    + rewrite (outcome_run _ _ _ _ _
                 (EngineFailed P s r out k rc bo be _ _ fs'
                    Hreach Hk Hrun Hcap Hrc Hr)).
      split; [eauto |]. split; [| intros [|]; congruence].
      intros to' te' Hto Hte _. simpl. congruence.
    + rewrite (outcome_run _ _ _ _ _
                 (FailureNotPrinted P s r out k rc bo be _ _ fs'
                    Hreach Hk Hrun Hcap Hrc Hr)).
      split; [eauto |]. split; [| intros [|]; congruence].
      intros to' te' Hto Hte Hr'. congruence.
Qed.

Lemma failing_reaches_engine :
  reaches_engine failing_platform stub_state (default_request "/src/in.png")
    "/tmp/tmp0.svg".
Proof. test_reaches. Defined.

Lemma engine_failure_is_raised_witness :
  fst (vectorize (default_request "/src/in.png") failing_platform stub_state)
  = inl (CalledProcessError 1
           (cmd failing_platform (default_request "/src/in.png")
                "/tmp/tmp0.svg")
           EmptyString "invalid color mode").
Proof.
  refine (proj1 (proj2 (engine_failure_is_raised failing_platform stub_state
                          (default_request "/src/in.png") "/tmp/tmp0.svg"
                          1 [] (list_byte_of_string "invalid color mode")
                          (files stub_state)
                          failing_reaches_engine _ _))
            EmptyString "invalid color mode" _ _ _).
  - reflexivity.
  - lia.
  - reflexivity.
  - vm_compute. reflexivity.
  - vm_compute. reflexivity.
Defined.

(** ** Metrics *)

(** C5: for file sizes (which are not negative) the compression ratio of
    line 160 never raises and is the specification's: 0 when the input
    size is 0, else (1 - output_size / input_size) * 100 in binary64; it
    is 50.0 for 1000 and 500 bytes and -50.0 for 1000 and 1500 bytes. *)
Theorem compression_ratio_is_spec (input_size output_size : Z) :
  0 ≤ input_size →
  compression_ratio input_size output_size
  = inr (spec_compression_ratio input_size output_size) ∧
  (input_size = 0 → compression_ratio input_size output_size = inr (Int 0)) ∧
  compression_ratio 1000 500 = inr (Float 50) ∧
  compression_ratio 1000 1500 = inr (Float (-50)).
Proof.
  intros Hpos. split; [| split; [| split; reflexivity]].
  - unfold compression_ratio, spec_compression_ratio, truediv_int.
    destruct (input_size =? 0) eqn:E0.
    + apply Z.eqb_eq in E0. subst. reflexivity.
    + apply Z.eqb_neq in E0.
      assert (Hgt : (input_size >? 0) = true) by (apply Z.gtb_lt; lia).
      rewrite Hgt. reflexivity.
  - intros ->. reflexivity.
Qed.

Lemma compression_ratio_is_spec_witness :
  compression_ratio 10000 4000 = inr (Float 60).
Proof.
  refine (eq_trans (proj1 (compression_ratio_is_spec 10000 4000 _)) _).
  - lia.
  - reflexivity.
Defined.

(** C6: the expression displayed as speed divides by the elapsed time
    without a guard: for every width and height it raises
    ZeroDivisionError at an elapsed time of zero, and a call whose two
    clock readings agree ends with that exception although the engine
    succeeded and its output is in place. *)
Theorem speed_divides_by_zero_elapsed :
  (∀ img : ImageInfo, speed img 0 = inl ZeroDivisionError) ∧
  fst (vectorize (default_request "/src/in.png") frozen_clock_platform
                 stub_state) = inl ZeroDivisionError ∧
  files (snd (vectorize (default_request "/src/in.png") frozen_clock_platform
                        stub_state)) !! "/tmp/tmp0.svg"
  = Some (list_byte_of_string "<svg/>").
Proof.
  split; [| split].
  - intros img. reflexivity.
  - vm_compute. reflexivity.
  - vm_compute. reflexivity.
Qed.

(** ** The output file *)

(** Counterexample to C7 as stated: the engine exits with status 0 and
    leaves a file of no bytes at the destination, and the call returns
    that path. *)
Lemma empty_output_is_returned :
  run_program empty_output_platform
    (cmd empty_output_platform (default_request "/src/in.png") "/tmp/tmp0.svg")
    (files stub_state)
  = Exited 0 [] [] (<["/tmp/tmp0.svg" := []]> (files stub_state)) ∧
  fst (vectorize (default_request "/src/in.png") empty_output_platform
                 stub_state) = inr "/tmp/tmp0.svg" ∧
  files (snd (vectorize (default_request "/src/in.png") empty_output_platform
                        stub_state)) !! "/tmp/tmp0.svg" = Some [].
Proof.
  split; [reflexivity |]. split; vm_compute; reflexivity.
Qed.

(** C7 (amended): a path is returned only if a file exists at it when the
    call ends; when the engine exits with status 0 and no file is at the
    destination, the call raises instead of returning: FileNotFoundError
    from [os.path.getsize] whenever the engine's captured streams
    decode. *)
Theorem returned_output_exists (P : Platform) (s : State) (r : Request) :
  (∀ p s', vectorize r P s = (inr p, s') → is_Some (files s' !! p)) ∧
  (∀ out bo be fs',
     reaches_engine P s r out →
     run_program P (cmd P r out) (files s) = Exited 0 bo be fs' →
     fs' !! out = None →
     (∃ e, fst (vectorize r P s) = inl e) ∧
     (is_Some (decode P bo) → is_Some (decode P be) →
      fst (vectorize r P s) = inl (FileNotFoundError out))).
Proof.
  split.
  - intros p s' Hret.
    destruct (vectorize_returns P s r p s' Hret)
      as (k & bo & be & fs' & svg & _ & _ & _ & Hout & ->).
    simpl. rewrite Hout. eauto.
  - intros out bo be fs' Hreach Hrun Hnone.
    pose proof Hreach as (_ & _ & (k & Hk)).
    destruct (captured_text P bo be) as [e | [so se]] eqn:Hcap.
    + rewrite (outcome_run _ _ _ _ _
                 (Undecodable P s r out k 0 bo be fs' e Hreach Hk Hrun Hcap)).
      split; [eauto |]. intros [to Hto] [te Hte].
      apply captured_text_inl in Hcap as [(? & _) | (_ & ? & _)]; congruence.
    + rewrite (outcome_run _ _ _ _ _
                 (NoOutput P s r out k bo be so se fs'
                    Hreach Hk Hrun Hcap Hnone)).
      split; [eauto | reflexivity].
Qed.

Lemma returned_output_exists_witness :
  is_Some (files (snd (vectorize (default_request "/src/in.png")
                                 stub_platform stub_state))
           !! "/tmp/tmp0.svg").
Proof.
  refine (proj1 (returned_output_exists stub_platform stub_state
                   (default_request "/src/in.png")) "/tmp/tmp0.svg" _ _).
  vm_compute. reflexivity.
Defined.

(** ** An input that is not an image *)

(** C8: when the bytes of the input file are not an image, [Image.open]
    raises PIL's UnidentifiedImageError (the specification's
    ImageDecodeError) out of [predict], and so out of the call whenever
    the arguments are valid; no process is started and no file changes,
    for every request. *)
Theorem undecodable_image_stops (P : Platform) (s : State) (r : Request)
    (bytes : list Byte.byte) :
  files s !! image r = Some bytes →
  identify P bytes = None →
  fst (predict r P s) = inl (UnidentifiedImageError (image r)) ∧
  (violations r = [] →
   fst (vectorize r P s) = inl (UnidentifiedImageError (image r))) ∧
  invocations (snd (vectorize r P s)) = invocations s ∧
  files (snd (vectorize r P s)) = files s.
Proof.
  intros Hf Hi.
  assert (Hrun : predict r P s = (inl (UnidentifiedImageError (image r)), tick s))
    by (now rewrite predict_unfold, Hf, Hi).
  split; [now rewrite Hrun |]. split.
  - intros Hv. now rewrite (vectorize_valid r P s Hv), Hrun.
  - unfold vectorize, validate. destruct (violations r); [| now simpl].
    now rewrite Hrun.
Qed.

Lemma undecodable_image_stops_witness :
  fst (predict (default_request "/src/in.png") stub_platform unreadable_state)
  = inl (UnidentifiedImageError "/src/in.png").
Proof.
  refine (proj1 (undecodable_image_stops stub_platform unreadable_state
                   (default_request "/src/in.png") [] _ _)); reflexivity.
Defined.

(** ** Determinism *)

(** Counterexample to C9 as stated: an engine that is a function of its
    argument vector alone and writes the name of its destination into its
    artifact.  Two calls in a row with the same request, the image
    unchanged in between, return artifacts that differ. *)
Lemma same_call_different_artifact :
  let r := default_request "/src/in.png" in
  let s1 := snd (vectorize r naming_platform stub_state) in
  let s2 := snd (vectorize r naming_platform s1) in
  fst (vectorize r naming_platform stub_state) = inr "/tmp/tmp0.svg" ∧
  fst (vectorize r naming_platform s1) = inr "/tmp/tmp1.svg" ∧
  files s1 !! image r = files stub_state !! image r ∧
  files s1 !! "/tmp/tmp0.svg" = Some (list_byte_of_string "/tmp/tmp0.svg") ∧
  files s2 !! "/tmp/tmp1.svg" = Some (list_byte_of_string "/tmp/tmp1.svg") ∧
  files s1 !! "/tmp/tmp0.svg" ≠ files s2 !! "/tmp/tmp1.svg".
Proof.
  cbv zeta. repeat split; try (vm_compute; reflexivity).
  vm_compute. discriminate.
Qed.

(** C9 (amended): two calls with the same request, on states in which the
    image file holds the same bytes, each returning a path, start the
    engine with the same argument vector but for the destination after
    [--output], which [mktemp] draws anew for each call.  Over an engine
    that renders without regard to the destination, the two artifacts
    hold the same bytes. *)
Theorem same_input_same_artifact (P : Platform) (r : Request)
    (s1 s2 s1' s2' : State) (p1 p2 : string) :
  files s1 !! image r = files s2 !! image r →
  vectorize r P s1 = (inr p1, s1') →
  vectorize r P s2 = (inr p2, s2') →
  (∃ rest,
     invocations s1' =
       (invocations s1 ++
        [Exec ("vtracer" :: "--input" :: image r :: "--output" :: p1
               :: rest)])%list ∧
     invocations s2' =
       (invocations s2 ++
        [Exec ("vtracer" :: "--input" :: image r :: "--output" :: p2
               :: rest)])%list) ∧
  (destination_blind P →
   ∃ svg, files s1' !! p1 = Some svg ∧ files s2' !! p2 = Some svg).
Proof.
  intros Himg H1 H2.
  destruct (vectorize_returns P s1 r p1 s1' H1)
    as (k1 & bo1 & be1 & fs1 & svg1 & _ & _ & Hrun1 & Hout1 & ->).
  destruct (vectorize_returns P s2 r p2 s2' H2)
    as (k2 & bo2 & be2 & fs2 & svg2 & _ & _ & Hrun2 & Hout2 & ->).
  split; [eexists; split; reflexivity |].
  intros (render & Hrender).
  pose proof (Hrender _ _ _ _ _ _ _ _ Hrun1) as Hr1.
  pose proof (Hrender _ _ _ _ _ _ _ _ Hrun2) as Hr2.
  exists svg1. simpl. split; [exact Hout1 |].
  rewrite Hr2, <- Himg, <- Hr1. exact Hout1.
Qed.

Lemma stub_engine_destination_blind : destination_blind stub_platform.
Proof.
  exists (λ _ _, Some (list_byte_of_string "<svg/>")).
  intros bin img out rest fs fs' so se Hrun.
  simpl in Hrun. simplify_eq. apply lookup_insert_eq.
Qed.

Lemma same_input_same_artifact_witness :
  let r := default_request "/src/in.png" in
  let s1' := snd (vectorize r stub_platform stub_state) in
  ∃ svg, files s1' !! "/tmp/tmp0.svg" = Some svg ∧
         files (snd (vectorize r stub_platform s1')) !! "/tmp/tmp1.svg"
         = Some svg.
Proof.
  refine (proj2 (same_input_same_artifact stub_platform
                   (default_request "/src/in.png") stub_state
                   (snd (vectorize (default_request "/src/in.png")
                                   stub_platform stub_state))
                   _ _ "/tmp/tmp0.svg" "/tmp/tmp1.svg" _ _ _)
            stub_engine_destination_blind);
    vm_compute; reflexivity.
Defined.

(** ** The returned path *)

Lemma endswith_refl s : endswith s s = true.
Proof.
  destruct s; [reflexivity |].
  cbn [endswith]. now rewrite String.eqb_refl.
Qed.

Lemma endswith_app a b p : endswith b p = true → endswith (a +:+ b) p = true.
Proof.
  intros Hb. induction a as [| c a IH]; [exact Hb |].
  change (String c a +:+ b) with (String c (a +:+ b)).
  cbn [endswith]. rewrite IH. apply orb_true_r.
Qed.

Lemma os_path_join_endswith a b p :
  endswith b p = true → endswith (os_path_join a b) p = true.
Proof.
  intros Hb. unfold os_path_join.
  destruct (startswith b "/"); [exact Hb |].
  destruct (String.eqb a EmptyString || endswith a "/"); auto using endswith_app.
Qed.

(** A name that [mktemp]'s loop returns is free, and is the temporary
    directory joined with "tmp", a drawn name and the suffix. *)
Lemma mktemp_loop_some P fs suffix tries k file k' :
  mktemp_loop P fs suffix tries k = Some (file, k') →
  fs !! file = None ∧
  ∃ j, file = os_path_join (gettempdir P)
                ("tmp" +:+ candidate_names P j +:+ suffix).
Proof.
  revert k. induction tries as [| tries IH]; intros k; simpl; [discriminate |].
  destruct (fs !! os_path_join _ _) eqn:Hfree.
  - apply IH.
  - intros H. simplify_eq. eauto.
Qed.

(** C10: a returned path is the value that follows [--output] in the one
    command started by the call; it names no file of the state the call
    started in; it is the temporary directory joined with "tmp", a name
    drawn by [tempfile] and the suffix, so it ends in ".svg"; and it is
    the same for every other request (another image, other parameters)
    that returns from the same state. *)
Theorem returned_path_is_fresh_svg (P : Platform) (s s' : State)
    (r : Request) (p : string) :
  vectorize r P s = (inr p, s') →
  (∃ rest, invocations s' =
           (invocations s ++
            [Exec ("vtracer" :: "--input" :: image r :: "--output" :: p
                   :: rest)])%list) ∧
  files s !! p = None ∧
  (∃ j, p = os_path_join (gettempdir P)
              ("tmp" +:+ candidate_names P j +:+ ".svg")) ∧
  endswith p ".svg" = true ∧
  (∀ r2 p2 s2', vectorize r2 P s = (inr p2, s2') → p2 = p).
Proof.
  intros Hret.
  destruct (vectorize_returns P s r p s' Hret)
    as (k & bo & be & fs' & svg & _ & Hk & _ & _ & ->).
  destruct (mktemp_loop_some _ _ _ _ _ _ _ Hk) as (Hfree & j & Hp).
  split; [eexists; reflexivity |]. split; [exact Hfree |].
  split; [eauto |]. split.
  - rewrite Hp. apply os_path_join_endswith.
    apply (endswith_app "tmp"), endswith_app, endswith_refl.
  - intros r2 p2 s2' Hret2.
    destruct (vectorize_returns P s r2 p2 s2' Hret2)
      as (k2 & _ & _ & _ & _ & _ & Hk2 & _).
    congruence.
Qed.

Lemma returned_path_is_fresh_svg_witness :
  files stub_state !! "/tmp/tmp0.svg" = None ∧
  endswith "/tmp/tmp0.svg" ".svg" = true.
Proof.
  refine (let H := returned_path_is_fresh_svg stub_platform stub_state _
                     (default_request "/src/in.png") "/tmp/tmp0.svg" _ in
          conj (proj1 (proj2 H)) (proj1 (proj2 (proj2 (proj2 H))))).
  vm_compute. reflexivity.
Defined.

(** * Further properties of [predict] *)


(** * Further properties of [predict] *)

Lemma captured_text_decodes P bo be :
  is_Some (decode P bo) → is_Some (decode P be) →
  ∃ so se, captured_text P bo be = inr (so, se).
Proof.
  intros [to Hto] [te Hte]. unfold captured_text, text_mode.
  rewrite Hto, Hte. eauto.
Qed.

Lemma no_engine_reaches_engine :
  reaches_engine no_engine_platform stub_state (default_request "/src/in.png")
    "/tmp/tmp0.svg".
Proof. test_reaches. Defined.

Lemma partial_reaches_engine :
  reaches_engine partial_output_platform stub_state
    (default_request "/src/in.png") "/tmp/tmp0.svg".
Proof. test_reaches. Defined.

Lemma tagged_reaches_engine :
  reaches_engine tagged_platform stub_state
    (default_request "/src/in.png") "/tmp/tmp0.svg".
Proof. test_reaches. Defined.

(** ** When a call returns *)

(** X1: a call with valid arguments on an image that opens, for which
    [mktemp] finds the free name [out], whose engine exits with status 0,
    writes streams that decode and leaves a file at [out], and whose two
    clock readings differ, returns [out]; the files are then those the
    engine left and the engine's command is the one process the call
    started. *)
Theorem call_returns (P : Platform) (s : State) (r : Request) (out : string)
    (bo be : list Byte.byte) (fs' : gmap string (list Byte.byte))
    (svg : list Byte.byte) :
  reaches_engine P s r out →
  run_program P (cmd P r out) (files s) = Exited 0 bo be fs' →
  is_Some (decode P bo) →
  is_Some (decode P be) →
  fs' !! out = Some svg →
  PrimFloat.eqb (elapsed_time_from P s) 0 = false →
  fst (vectorize r P s) = inr out ∧
  files (snd (vectorize r P s)) = fs' ∧
  invocations (snd (vectorize r P s))
  = (invocations s ++ [Exec (cmd P r out)])%list.
Proof.
  intros Hreach Hrun Hbo Hbe Hout He.
  pose proof Hreach as (_ & _ & (k & Hk)).
  destruct (captured_text_decodes P bo be Hbo Hbe) as (so & se & Hcap).
  rewrite (outcome_run _ _ _ _ _
             (Returned P s r out k bo be so se fs' svg
                Hreach Hk Hrun Hcap Hout He)).
  repeat split; reflexivity.
Qed.

Lemma call_returns_witness :
  fst (vectorize (default_request "/src/in.png") stub_platform stub_state)
  = inr "/tmp/tmp0.svg".
Proof.
  refine (proj1 (call_returns stub_platform stub_state
                   (default_request "/src/in.png") "/tmp/tmp0.svg"
                   [] []
                   (<["/tmp/tmp0.svg" := list_byte_of_string "<svg/>"]>
                      (files stub_state))
                   (list_byte_of_string "<svg/>")
                   stub_reaches_engine _ _ _ _ _)).
  - reflexivity.
  - exists EmptyString. reflexivity.
  - exists EmptyString. reflexivity.
  - vm_compute. reflexivity.
  - vm_compute. reflexivity.
Defined.

(** ** Where the exceptions come from *)

(** X2: a call ends in ZeroDivisionError exactly when it reached the
    engine, the engine exited with status 0, wrote streams that decode
    and left a file at the destination, and the elapsed time of line 158
    is zero: the division of line 173 is the only one that can fail. *)
Theorem zero_division_only_at_zero_elapsed (P : Platform) (s : State)
    (r : Request) :
  fst (vectorize r P s) = inl ZeroDivisionError ↔
  ∃ out bo be fs' svg,
    reaches_engine P s r out ∧
    run_program P (cmd P r out) (files s) = Exited 0 bo be fs' ∧
    is_Some (decode P bo) ∧
    is_Some (decode P be) ∧
    fs' !! out = Some svg ∧
    PrimFloat.eqb (elapsed_time_from P s) 0 = true.
Proof.
  split.
  - intros Hres. pose proof (vectorize_outcome P s r) as Hout.
    rewrite Hres in Hout. inversion Hout; subst.
    + match goal with
      | H : captured_text _ _ _ = inl _ |- _ =>
          apply captured_text_inl in H as [(_ & [=]) | (_ & _ & [=])]
      end.
    + match goal with
      | H : captured_text _ _ _ = inr _ |- _ =>
          apply captured_text_inr in H as (to & te & Hto & Hte & _)
      end.
      exists out, bo, be, fs', svg.
      split; [assumption |]. repeat split; eauto using mk_is_Some.
  - intros (out & bo & be & fs' & svg & Hreach & Hrun & Hbo & Hbe & Hfile & He).
    pose proof Hreach as (_ & _ & (k & Hk)).
    destruct (captured_text_decodes P bo be Hbo Hbe) as (so & se & Hcap).
    now rewrite (outcome_run _ _ _ _ _
                   (ZeroElapsed P s r out k bo be so se fs' svg
                      Hreach Hk Hrun Hcap Hfile He)).
Qed.

(** X3: a CalledProcessError leaves a call only for a process the call
    itself started: its status is not zero, its command is the engine's
    command line for a destination the call reached the engine with, and
    its two streams are those the engine wrote, decoded and with CR LF
    and CR rewritten to LF. *)
Theorem called_process_error_is_the_engines (P : Platform) (s : State)
    (r : Request) (rc : Z) (c : list string) (so se : string) :
  fst (vectorize r P s) = inl (CalledProcessError rc c so se) →
  rc ≠ 0 ∧
  ∃ out fs' bo be to te,
    reaches_engine P s r out ∧
    c = cmd P r out ∧
    run_program P c (files s) = Exited rc bo be fs' ∧
    decode P bo = Some to ∧ so = translate_newlines to ∧
    decode P be = Some te ∧ se = translate_newlines te.
Proof.
  intros Hres. pose proof (vectorize_outcome P s r) as Hout.
  rewrite Hres in Hout. inversion Hout; subst.
  - match goal with
    | H : captured_text _ _ _ = inl _ |- _ =>
        apply captured_text_inl in H as [(_ & [=]) | (_ & _ & [=])]
    end.
  - match goal with
    | H : captured_text _ _ _ = inr _ |- _ =>
        apply captured_text_inr in H as (to & te & Hto & Hte & -> & ->)
    end.
    split; [assumption |].
    exists out, fs', bo, be, to, te.
    split; [assumption |]. repeat split; assumption.
Qed.

Lemma called_process_error_is_the_engines_witness :
  1 ≠ 0 ∧
  ∃ out fs' bo be to te,
    reaches_engine failing_platform stub_state
      (default_request "/src/in.png") out ∧
    cmd failing_platform (default_request "/src/in.png") "/tmp/tmp0.svg"
    = cmd failing_platform (default_request "/src/in.png") out ∧
    run_program failing_platform
      (cmd failing_platform (default_request "/src/in.png") "/tmp/tmp0.svg")
      (files stub_state)
    = Exited 1 bo be fs' ∧
    decode failing_platform bo = Some to ∧
    EmptyString = translate_newlines to ∧
    decode failing_platform be = Some te ∧
    "invalid color mode" = translate_newlines te.
Proof.
  refine (called_process_error_is_the_engines failing_platform stub_state
            (default_request "/src/in.png") 1
            (cmd failing_platform (default_request "/src/in.png")
                 "/tmp/tmp0.svg")
            EmptyString "invalid color mode" _).
  vm_compute. reflexivity.
Defined.

(** X4: when no program named vtracer can be started, a call that
    reached the engine raises the FileNotFoundError of [subprocess.run]
    for that name (the except clause does not catch it); no file has
    changed. *)
Theorem missing_engine_is_file_not_found (P : Platform) (s : State)
    (r : Request) (out : string) :
  reaches_engine P s r out →
  run_program P (cmd P r out) (files s) = NoSuchProgram →
  fst (vectorize r P s) = inl (FileNotFoundError "vtracer") ∧
  files (snd (vectorize r P s)) = files s.
Proof.
  intros Hreach Hrun.
  pose proof Hreach as (_ & _ & (k & Hk)).
  rewrite (outcome_run _ _ _ _ _ (NoEngine P s r out k Hreach Hk Hrun)).
  split; reflexivity.
Qed.

Lemma missing_engine_is_file_not_found_witness :
  fst (vectorize (default_request "/src/in.png") no_engine_platform stub_state)
  = inl (FileNotFoundError "vtracer") ∧
  files (snd (vectorize (default_request "/src/in.png") no_engine_platform
                        stub_state)) = files stub_state.
Proof.
  refine (missing_engine_is_file_not_found no_engine_platform stub_state
            (default_request "/src/in.png") "/tmp/tmp0.svg"
            no_engine_reaches_engine _).
  reflexivity.
Defined.

(** X14: the except clause prints the engine's error text as rich
    markup before it raises again: when the engine exits with a status
    other than zero and rich fails on the printed line (a closing tag in
    the text that matches no open one), the call ends in rich's
    MarkupError and the engine's CalledProcessError is lost. *)
Theorem unprintable_error_masks_the_failure (P : Platform) (s : State)
    (r : Request) (out : string) (rc : Z) (bo be : list Byte.byte)
    (to te : string) (fs' : gmap string (list Byte.byte)) :
  reaches_engine P s r out →
  run_program P (cmd P r out) (files s) = Exited rc bo be fs' →
  rc ≠ 0 →
  decode P bo = Some to →
  decode P be = Some te →
  renders P (error_line (translate_newlines te)) = false →
  fst (vectorize r P s)
  = inl (MarkupError ("[red]" +:+ translate_newlines te +:+ "[/red]")).
Proof.
  intros Hreach Hrun Hrc Hbo Hbe Hr.
  pose proof Hreach as (_ & _ & (k & Hk)).
  assert (Hcap : captured_text P bo be
                 = inr (translate_newlines to, translate_newlines te))
    by (apply captured_text_inr; eauto 6).
  now rewrite (outcome_run _ _ _ _ _
                 (FailureNotPrinted P s r out k rc bo be _ _ fs'
                    Hreach Hk Hrun Hcap Hrc Hr)).
Qed.

Lemma unprintable_error_masks_the_failure_witness :
  fst (vectorize (default_request "/src/in.png") tagged_platform stub_state)
  = inl (MarkupError "[red]error: [/foo][/red]").
Proof.
  refine (unprintable_error_masks_the_failure tagged_platform stub_state
            (default_request "/src/in.png") "/tmp/tmp0.svg" 1 []
            (list_byte_of_string "error: [/foo]") EmptyString "error: [/foo]"
            (files stub_state) tagged_reaches_engine _ _ _ _ _).
  - reflexivity.
  - lia.
  - reflexivity.
  - vm_compute. reflexivity.
  - vm_compute. reflexivity.
Defined.

(** ** Failures before the engine *)

(** X5: when no file exists at the image path, a call with valid
    arguments raises the FileNotFoundError of [Image.open] for that path;
    it has read the clock once and done nothing else: no name drawn, no
    process started, no file changed. *)
Theorem missing_image_is_file_not_found (P : Platform) (s : State)
    (r : Request) :
  violations r = [] →
  files s !! image r = None →
  vectorize r P s = (inl (FileNotFoundError (image r)), tick s).
Proof.
  intros Hv Hf. now rewrite (vectorize_valid r P s Hv), predict_unfold, Hf.
Qed.

Lemma missing_image_is_file_not_found_witness :
  vectorize (default_request "/src/gone.png") stub_platform stub_state
  = (inl (FileNotFoundError "/src/gone.png"), tick stub_state).
Proof.
  refine (missing_image_is_file_not_found stub_platform stub_state
            (default_request "/src/gone.png") _ _); reflexivity.
Defined.

Lemma mktemp_loop_none P fs suffix tries k :
  (∀ i, (i < tries)%nat → is_Some (fs !! candidate_path P suffix (k + i))) →
  mktemp_loop P fs suffix tries k = None.
Proof.
  revert k. induction tries as [| tries IH]; intros k Htaken; [reflexivity |].
  cbn [mktemp_loop]. fold (candidate_path P suffix k).
  destruct (Htaken 0%nat ltac:(lia)) as [bytes Hb].
  rewrite Nat.add_0_r in Hb. rewrite Hb. apply IH.
  intros i Hi. replace (S k + i)%nat with (k + S i)%nat by lia.
  apply Htaken. lia.
Qed.

(** X6: when each of the next TMP_MAX names [mktemp] would draw is the
    name of an existing file, a call with valid arguments on an image
    that opens raises FileExistsError; it has read the clock once, drawn
    those TMP_MAX names and started no process. *)
Theorem no_free_name_is_file_exists (P : Platform) (s : State) (r : Request)
    (bytes : list Byte.byte) (img : ImageInfo) :
  violations r = [] →
  files s !! image r = Some bytes →
  identify P bytes = Some img →
  (∀ i, (i < TMP_MAX P)%nat →
        is_Some (files s !! candidate_path P ".svg" (names_drawn s + i))) →
  vectorize r P s
  = (inl FileExistsError, drawn (names_drawn s + TMP_MAX P) (tick s)).
Proof.
  intros Hv Hf Hi Htaken.
  apply outcome_run, (NoFreeName P s r bytes img Hv Hf Hi).
  exact (mktemp_loop_none P (files s) ".svg" _ _ Htaken).
Qed.

Lemma no_free_name_is_file_exists_witness :
  vectorize (default_request "/src/in.png") two_names_platform crowded_state
  = (inl FileExistsError,
     {| files := files crowded_state; time_calls := 1; names_drawn := 2;
        invocations := [] |}).
Proof.
  refine (no_free_name_is_file_exists two_names_platform crowded_state
            (default_request "/src/in.png") (list_byte_of_string "PNG")
            {| format := "PNG"; size := (100, 100); mode := "RGB" |} _ _ _ _).
  - reflexivity.
  - vm_compute. reflexivity.
  - reflexivity.
  - intros i Hi. exists (list_byte_of_string "<svg/>").
    destruct i as [| [| i]]; [vm_compute; reflexivity .. |].
    simpl in Hi. lia.
Defined.

(** ** Files *)

(** X7: a call writes and removes no file itself: the files it ends with
    are those it started with, or those the engine left when run with
    the call's command line, for the destination the call reached it
    with, over the files the call started with. *)
Theorem files_change_only_by_engine (P : Platform) (s : State) (r : Request) :
  files (snd (vectorize r P s)) = files s ∨
  ∃ out rc so se,
    reaches_engine P s r out ∧
    run_program P (cmd P r out) (files s)
    = Exited rc so se (files (snd (vectorize r P s))).
Proof.
  destruct (outcome_state _ _ _ _ _ (vectorize_outcome P s r))
    as [(Hfiles & _) | (out & Hreach & _ & [(Hfiles & _) | (rc & bo & be & Hrun)])];
    eauto 10.
Qed.

(** X8: nothing is cleaned up after a failed engine: when the engine
    exits with a status other than zero, the call raises and the files
    are exactly those the engine left, a partly written destination
    included. *)
Theorem failed_engine_output_is_left (P : Platform) (s : State) (r : Request)
    (out : string) (rc : Z) (bo be : list Byte.byte)
    (fs' : gmap string (list Byte.byte)) :
  reaches_engine P s r out →
  run_program P (cmd P r out) (files s) = Exited rc bo be fs' →
  rc ≠ 0 →
  files (snd (vectorize r P s)) = fs' ∧
  (∃ e, fst (vectorize r P s) = inl e).
Proof.
  intros Hreach Hrun Hrc.
  pose proof (vectorize_outcome P s r) as Hout.
  destruct (vectorize r P s) as [res s']. simpl in *.
  pose proof Hreach as (Hv & (bytes & img & Hf & Hi) & (k & Hk)).
  inversion Hout; subst; try congruence;
    match goal with
    | H : mktemp_loop _ _ _ _ _ = Some _ |- _ =>
        rewrite Hk in H; injection H as <- <-
    end;
    match goal with
    | H : run_program _ _ _ = _ |- _ => rewrite Hrun in H
    end;
    try discriminate;
    match goal with
    | H : Exited _ _ _ _ = Exited _ _ _ _ |- _ => injection H as <- <- <- <-
    end;
    try congruence; simpl; eauto.
Qed.

Lemma failed_engine_output_is_left_witness :
  files (snd (vectorize (default_request "/src/in.png")
                        partial_output_platform stub_state))
  = <["/tmp/tmp0.svg" := list_byte_of_string "<sv"]> (files stub_state).
Proof.
  refine (proj1 (failed_engine_output_is_left
                   partial_output_platform stub_state
                   (default_request "/src/in.png") "/tmp/tmp0.svg"
                   2 [] (list_byte_of_string "disk full")
                   (<["/tmp/tmp0.svg" := list_byte_of_string "<sv"]>
                      (files stub_state))
                   partial_reaches_engine _ _)).
  - reflexivity.
  - lia.
Defined.

(** ** Destinations *)

(** X9: the destination handed to the engine is never the input image's
    path and names no file of the state the call started in: the engine
    is never asked to overwrite its input or an existing file. *)
Theorem output_is_not_the_input (P : Platform) (s : State) (r : Request)
    (out : string) :
  reaches_engine P s r out →
  files s !! out = None ∧ out ≠ image r.
Proof.
  intros (_ & (bytes & img & Hf & _) & (k & Hk)).
  destruct (mktemp_loop_some _ _ _ _ _ _ _ Hk) as (Hfree & _).
  split; [exact Hfree |]. intros ->. congruence.
Qed.

Lemma output_is_not_the_input_witness :
  files stub_state !! "/tmp/tmp0.svg" = None ∧
  "/tmp/tmp0.svg" ≠ image (default_request "/src/in.png").
Proof.
  exact (output_is_not_the_input stub_platform stub_state
           (default_request "/src/in.png") "/tmp/tmp0.svg"
           stub_reaches_engine).
Defined.

(** X10: two calls in a row, each returning a path, return different
    paths: the second call, started in the state the first one left,
    cannot be given the first call's output file as its destination. *)
Theorem successive_outputs_differ (P : Platform) (s s1 s2 : State)
    (r1 r2 : Request) (p1 p2 : string) :
  vectorize r1 P s = (inr p1, s1) →
  vectorize r2 P s1 = (inr p2, s2) →
  is_Some (files s1 !! p1) ∧ files s1 !! p2 = None ∧ p1 ≠ p2.
Proof.
  intros H1 H2.
  destruct (vectorize_returns P s r1 p1 s1 H1)
    as (k1 & bo1 & be1 & fs1 & svg1 & _ & _ & _ & Hout1 & ->).
  destruct (vectorize_returns P _ r2 p2 s2 H2)
    as (k2 & _ & _ & _ & _ & _ & Hk2 & _).
  destruct (mktemp_loop_some _ _ _ _ _ _ _ Hk2) as (Hfree & _).
  simpl in *. split; [eauto |]. split; [exact Hfree |].
  intros ->. congruence.
Qed.

Lemma successive_outputs_differ_witness :
  let r := default_request "/src/in.png" in
  let s1 := snd (vectorize r stub_platform stub_state) in
  is_Some (files s1 !! "/tmp/tmp0.svg") ∧
  files s1 !! "/tmp/tmp1.svg" = None ∧
  "/tmp/tmp0.svg" ≠ "/tmp/tmp1.svg".
Proof.
  refine (successive_outputs_differ stub_platform stub_state
            (snd (vectorize (default_request "/src/in.png") stub_platform
                            stub_state))
            _ (default_request "/src/in.png") (default_request "/src/in.png")
            "/tmp/tmp0.svg" "/tmp/tmp1.svg" _ _);
    vm_compute; reflexivity.
Defined.

(** ** Declarations *)

(** X11: every declared default satisfies its own declaration, so a call
    that passes the image alone is never rejected: it runs [predict]. *)
Theorem defaults_are_valid :
  (∀ p : IntParam, int_ok (int_input p) (int_default (int_input p)) = true) ∧
  float_ok segment_length_input (float_default segment_length_input) = true ∧
  (∀ p : StrParam, str_ok (str_input p) (str_default (str_input p)) = true) ∧
  (∀ (img : string) (P : Platform) (s : State),
     vectorize (default_request img) P s = predict (default_request img) P s).
Proof.
  split; [intros []; reflexivity |]. split; [reflexivity |].
  split; [intros []; reflexivity |]. intros img P s. reflexivity.
Qed.

Lemma SFeqb_refl (f : SpecFloat.spec_float) :
  f ≠ SpecFloat.S754_nan → SpecFloat.SFeqb f f = true.
Proof.
  destruct f as [sg | sg | | sg m e]; intros H; try congruence;
    unfold SpecFloat.SFeqb; simpl.
  - reflexivity.
  - destruct sg; reflexivity.
  - rewrite Z.compare_refl, Pos.compare_cont_refl. destruct sg; reflexivity.
Qed.

(** X12: a validated [segment_length] is a finite number: the
    comparisons with the declared bounds 3.5 and 50.0 fail for nan and
    for both infinities, so none of them is ever written on the engine's
    command line by a call. *)
Theorem validated_segment_length_is_finite (r : Request) :
  violations r = [] →
  PrimFloat.is_finite (segment_length r) = true.
Proof.
  intros Hv. apply violations_nil in Hv.
  destruct Hv as (_ & _ & _ & _ & _ & _ & (Hlo & Hhi) & _).
  revert Hlo Hhi. generalize (segment_length r). intros x.
  unfold PrimFloat.is_finite, PrimFloat.is_nan, PrimFloat.is_infinity.
  rewrite !FloatAxioms.leb_spec, !FloatAxioms.eqb_spec, FloatAxioms.abs_spec.
  let v := eval vm_compute in (FloatOps.Prim2SF 3.5) in
    change (FloatOps.Prim2SF 3.5) with v.
  let v := eval vm_compute in (FloatOps.Prim2SF 50) in
    change (FloatOps.Prim2SF 50) with v.
  change (FloatOps.Prim2SF PrimFloat.infinity)
    with (SpecFloat.S754_infinity false).
  destruct (FloatOps.Prim2SF x) as [sg | sg | | sg m e]; intros H1 H2.
  - destruct sg; discriminate.
  - destruct sg; discriminate.
  - discriminate.
  - rewrite SFeqb_refl by discriminate. reflexivity.
Qed.

Lemma validated_segment_length_is_finite_witness :
  PrimFloat.is_finite (segment_length (default_request "/src/in.png")) = true.
Proof.
  exact (validated_segment_length_is_finite (default_request "/src/in.png")
           eq_refl).
Defined.

(** ** Numbers on the command line *)

Lemma int_of_str_int (z : Z) : int_of_str (str_int z) = Some z.
Proof.
  unfold int_of_str, str_int. rewrite NilZero.isi.
  - simpl. now rewrite DecimalZ.of_to.
  - destruct z; simpl; try discriminate.
    intros [= H]. now apply DecimalPos.Unsigned.to_uint_nonnil in H.
  - destruct z; simpl; try discriminate.
    intros [= H]. now apply DecimalPos.Unsigned.to_uint_nonnil in H.
Qed.

(** X13: the five integer parameters are written on the command line
    without loss: after its flag, each one's text reads back as the
    parameter's value, for every request and destination. *)
Theorem integer_arguments_read_back (P : Platform) (r : Request)
    (out : string) :
  let argv := cmd P r out in
  (nth 9 argv EmptyString = "--filter_speckle" ∧
   int_of_str (nth 10 argv EmptyString) = Some (filter_speckle r)) ∧
  (nth 11 argv EmptyString = "--color_precision" ∧
   int_of_str (nth 12 argv EmptyString) = Some (color_precision r)) ∧
  (nth 13 argv EmptyString = "--layer_difference" ∧
   int_of_str (nth 14 argv EmptyString) = Some (layer_difference r)) ∧
  (nth 15 argv EmptyString = "--corner_threshold" ∧
   int_of_str (nth 16 argv EmptyString) = Some (corner_threshold r)) ∧
  (nth 19 argv EmptyString = "--splice_threshold" ∧
   int_of_str (nth 20 argv EmptyString) = Some (splice_threshold r)).
Proof.
  cbv zeta. unfold cmd. cbn [nth].
  repeat split; apply int_of_str_int.
Qed.
